(** * vibe-inventory: a shallow embedding of the client logic (src/App.jsx)
      and of the low-stock notification function, with the properties
      stated about them.

    Conventions of the model.
    - A JavaScript string is a [string]; a character is read as a code unit
      below 256 (the Latin-1 range of UTF-16).
    - Counts, levels and timestamps are integers ([Z]); timestamps are
      milliseconds since the epoch.
    - An [async] function is a function from the values the backend answers
      with (an [..Env] record) and the current state to the new state and
      the list of backend calls it issued, in order. *)

From Stdlib Require Import ZArith Ascii String List Bool Lia Sorted Permutation.
From stdpp Require Import base decidable option list strings pretty gmap.

Local Open Scope string_scope.
Local Open Scope Z_scope.

(** ** JavaScript values and string primitives *)

Module JS.

(** Scalar JavaScript values, as they occur in JSON metadata, form fields
    and patches. *)
Inductive JsVal : Type :=
| JUndefined
| JNull
| JBool (b : bool)
| JNum (n : Z)
| JStr (s : string).

#[global] Instance JsVal_eq_dec : EqDecision JsVal.
Proof. solve_decision. Defined.

(** ToBoolean. *)
Definition truthy (v : JsVal) : bool :=
  match v with
  | JUndefined | JNull => false
  | JBool b => b
  | JNum n => negb (n =? 0)
  | JStr s => negb (bool_decide (s = ""))
  end.

(** [a || b]. *)
Definition or_else (a b : JsVal) : JsVal := if truthy a then a else b.

(** [String(v)]. *)
Definition to_String (v : JsVal) : string :=
  match v with
  | JUndefined => "undefined"
  | JNull => "null"
  | JBool true => "true"
  | JBool false => "false"
  | JNum n => pretty n
  | JStr s => s
  end.

(** [a || b] on two strings. *)
Definition str_or (a b : string) : string :=
  if bool_decide (a = "") then b else a.

Definition code (c : ascii) : nat := nat_of_ascii c.

Definition in_range (lo hi : nat) (c : ascii) : bool :=
  (lo <=? code c)%nat && (code c <=? hi)%nat.

(** The class [\s] (WhiteSpace and LineTerminator) below code 256:
    TAB, LF, VT, FF, CR, SP and NBSP. *)
Definition is_space (c : ascii) : bool :=
  in_range 9 13 c || (code c =? 32)%nat || (code c =? 160)%nat.

(** [String.prototype.trim]. *)
Fixpoint trimStart (s : string) : string :=
  match s with
  | EmptyString => EmptyString
  | String c r => if is_space c then trimStart r else s
  end.

Fixpoint trimEnd (s : string) : string :=
  match s with
  | EmptyString => EmptyString
  | String c r =>
      match trimEnd r with
      | EmptyString => if is_space c then EmptyString else String c EmptyString
      | r' => String c r'
      end
  end.

Definition trim (s : string) : string := trimEnd (trimStart s).

(** [String.prototype.toLowerCase] on code units below 256: A-Z and the
    Latin-1 capitals U+00C0..U+00DE (without the multiplication sign
    U+00D7) move up by 32. *)
Definition lower_char (c : ascii) : ascii :=
  if in_range 65 90 c
     || (in_range 192 222 c && negb (code c =? 215)%nat)
  then ascii_of_nat (code c + 32)
  else c.

Fixpoint toLowerCase (s : string) : string :=
  match s with
  | EmptyString => EmptyString
  | String c r => String (lower_char c) (toLowerCase r)
  end.

(** [s.replace(/[cls]+/g, sub)]: every maximal run of characters of the
    class is replaced by [sub]. [in_run] tells that the previous
    character belonged to the run being replaced. *)
Fixpoint replace_runs_from (cls : ascii -> bool) (sub : string)
    (in_run : bool) (s : string) : string :=
  match s with
  | EmptyString => EmptyString
  | String c r =>
      if cls c then
        (if in_run then "" else sub) +:+ replace_runs_from cls sub true r
      else String c (replace_runs_from cls sub false r)
  end.

Definition replace_runs (cls : ascii -> bool) (sub : string) (s : string) :=
  replace_runs_from cls sub false s.

(** [s.replace(/[cls]/g, sub)]: every character of the class is replaced
    by [sub]. *)
Fixpoint replace_each (cls : ascii -> bool) (sub : string) (s : string)
    : string :=
  match s with
  | EmptyString => EmptyString
  | String c r =>
      if cls c then sub +:+ replace_each cls sub r
      else String c (replace_each cls sub r)
  end.

(** [s.startsWith(p)], [s.endsWith(p)], [s.includes(p)]. *)
Definition startsWith (p s : string) : bool := String.prefix p s.

Definition endsWith (p s : string) : bool :=
  String.prefix (String.rev p) (String.rev s).

Fixpoint includes (p s : string) : bool :=
  String.prefix p s ||
  match s with
  | EmptyString => false
  | String _ r => includes p r
  end.

(** [s.slice(0, n)]. *)
Definition slice0 (n : nat) (s : string) : string := String.substring 0 n s.

(** [Number(v)] on the integer fragment. [None] is NaN. A numeric string
    is read when it is a decimal integer literal, with an optional sign
    and surrounding white space; the empty string is 0. *)
Fixpoint digits_value (acc : Z) (s : string) : option Z :=
  match s with
  | EmptyString => Some acc
  | String c r =>
      if in_range 48 57 c
      then digits_value (10 * acc + Z.of_nat (code c - 48)) r
      else None
  end.

Definition parse_number (s : string) : option Z :=
  match trim s with
  | EmptyString => Some 0
  | String "-" (String _ _ as d) => Z.opp <$> digits_value 0 d
  | String "+" (String _ _ as d) => digits_value 0 d
  | d => digits_value 0 d
  end.

Definition to_Number (v : JsVal) : option Z :=
  match v with
  | JUndefined => None
  | JNull => Some 0
  | JBool b => Some (if b then 1 else 0)
  | JNum n => Some n
  | JStr s => parse_number s
  end.

(** [n || d] where [n] is the result of [Number(..)]: NaN and 0 are
    falsy. *)
Definition num_or (n : option Z) (d : Z) : Z :=
  match n with
  | Some k => if k =? 0 then d else k
  | None => d
  end.

End JS.

(** ** Identity: user names, synthetic e-mail addresses and the admin role *)

Module Identity.
Import JS.

Definition ADMIN_USERNAMES : gset string := {[ "admin" ]}.
Definition ADMIN_EMAILS : gset string := {[ "admin@vibe-user.example.com" ]}.

(** [String(u || "").trim().toLowerCase().replace(/\s+/g, "")] *)
Definition normalizeUsername (u : JsVal) : string :=
  replace_runs is_space ""
    (toLowerCase (trim (to_String (or_else u (JStr ""))))).

(** The user object of the auth service, as far as the client reads it.
    An absent property is [JUndefined]. *)
Record UserMetadata : Type := {
  username : JsVal;
  role : JsVal;
}.

Record User : Type := {
  email : JsVal;
  user_metadata : option UserMetadata;
}.

(** [user?.user_metadata?.username] and [user?.user_metadata?.role] *)
Definition metadata_of (user : option User) (field : UserMetadata -> JsVal)
    : JsVal :=
  match user with
  | Some u =>
      match user_metadata u with
      | Some md => field md
      | None => JUndefined
      end
  | None => JUndefined
  end.

(** [user?.email] *)
Definition email_of (user : option User) : JsVal :=
  match user with
  | Some u => email u
  | None => JUndefined
  end.

Definition isAdminIdentity (user : option User) (usernameHint : string)
    : bool :=
  let username :=
    normalizeUsername (or_else (metadata_of user username) (JStr usernameHint)) in
  let email := toLowerCase (to_String (or_else (email_of user) (JStr ""))) in
  let role :=
    toLowerCase (to_String (or_else (metadata_of user role) (JStr ""))) in
  bool_decide (role = "admin")
  || bool_decide (username ∈ ADMIN_USERNAMES)
  || bool_decide (email ∈ ADMIN_EMAILS).

(** The class [[a-z0-9._-]]. *)
Definition is_local_char (c : ascii) : bool :=
  in_range 97 122 c || in_range 48 57 c
  || (code c =? 46)%nat || (code c =? 95)%nat || (code c =? 45)%nat.

Definition usernameToAuthEmail (usernameRaw : string) : string :=
  let username := normalizeUsername (JStr usernameRaw) in
  let localPart := replace_each (fun c => negb (is_local_char c)) "" username in
  if bool_decide (localPart = "") then ""
  else localPart +:+ "@vibe-user.example.com".

(** The wording of the specification, to compare [usernameToAuthEmail]
    with: deleting characters is keeping the others. *)
Fixpoint keep_chars (keep : ascii -> bool) (s : string) : string :=
  match s with
  | EmptyString => EmptyString
  | String c r =>
      if keep c then String c (keep_chars keep r) else keep_chars keep r
  end.

Definition spec_localPart (input : string) : string :=
  keep_chars is_local_char
    (keep_chars (fun c => negb (is_space c))
       (toLowerCase (trim input))).

End Identity.

(** ** The rows the client keeps in memory *)

Module Item.
Record t : Type := {
  id : string;
  name : string;
  tag : string;
  location : string;
  qty : Z;
  checked : bool;
  note : string;
  createdBy : string;
  createdAt : Z;
  updatedBy : string;
  updatedAt : Z;
}.
End Item.

Module Consumable.
Record t : Type := {
  id : string;
  name : string;
  category : string;
  unit : string;
  location : string;
  onHand : Z;
  minLevel : Z;
  changedByName : string;
  changedByUsername : string;
  updatedAt : Z;
}.

#[global] Instance eq_dec : EqDecision t.
Proof. solve_decision. Defined.
End Consumable.

(** ** Calls to the backend *)

Module Backend.
Import JS.

(** The row [addItem] inserts into [inventory_items]. *)
Record InventoryRow : Type := {
  id : string;
  item_name : string;
  tag : string;
  location : string;
  qty : Z;
  notes : option string;
  checked : bool;
  created_by : string;
  updated_by : string;
}.

(** The columns [adjustConsumable] updates in [consumables_items]. *)
Record ConsumablePatch : Type := {
  on_hand : Z;
  updated_at : Z;
  updated_by_name : string;
  updated_by_username : string;
}.

(** The body of a request to the notification function. *)
Record LowStockPayload : Type := {
  consumable_id : string;
  name : string;
  payload_on_hand : Z;
  min_level : Z;
  payload_location : string;
  unit : string;
  payload_updated_by_name : string;
}.

Inductive Call : Type :=
| AuthGetUser
| AuthGetSession
| UpdateInventoryItem (patch : gmap string JsVal) (id : JsVal)
| InsertInventoryItem (row : InventoryRow)
| UpdateConsumable (patch : ConsumablePatch) (id : string)
| InvokeNotifyLowStock (body : LowStockPayload) (accessToken : string)
| LoadInventoryFromDb
| LoadConsumablesFromDb.

Definition is_inventory_write (c : Call) : bool :=
  match c with
  | UpdateInventoryItem _ _ | InsertInventoryItem _ => true
  | _ => false
  end.

Definition is_notify (c : Call) : bool :=
  match c with
  | InvokeNotifyLowStock _ _ => true
  | _ => false
  end.

Definition consumable_write (c : Call) : option Z :=
  match c with
  | UpdateConsumable patch _ => Some (on_hand patch)
  | _ => None
  end.

End Backend.

(** ** The application component: state and handlers

    The Supabase client reports a failure in the [error] field of its
    answer and does not throw; a handler is modelled along the paths its
    calls take on such answers. What [loadInventoryFromDb] and
    [loadConsumablesFromDb] fetch is not modelled: they appear as calls. *)

Module App.
Import JS Backend.

(** The state variables of [App] that the handlers below read or set. *)
Record AppState : Type := {
  currentUser : string;
  currentName : string;
  isAdmin : bool;
  items : list Item.t;
  consumables : list Consumable.t;
  toast : string;
  isAdding : bool;
  addError : string;
  addDebug : string;
  showAddDialog : bool;
  query : string;
  filter : string;
  sort : string;
}.

Definition setToast (v : string) (s : AppState) : AppState :=
  {| currentUser := currentUser s; currentName := currentName s;
     isAdmin := isAdmin s; items := items s; consumables := consumables s;
     toast := v; isAdding := isAdding s; addError := addError s;
     addDebug := addDebug s; showAddDialog := showAddDialog s;
     query := query s; filter := filter s; sort := sort s |}.

(** [setItems((prev) => f(prev))] *)
Definition setItems (f : list Item.t -> list Item.t) (s : AppState)
    : AppState :=
  {| currentUser := currentUser s; currentName := currentName s;
     isAdmin := isAdmin s; items := f (items s);
     consumables := consumables s;
     toast := toast s; isAdding := isAdding s; addError := addError s;
     addDebug := addDebug s; showAddDialog := showAddDialog s;
     query := query s; filter := filter s; sort := sort s |}.

Definition setIsAdding (v : bool) (s : AppState) : AppState :=
  {| currentUser := currentUser s; currentName := currentName s;
     isAdmin := isAdmin s; items := items s; consumables := consumables s;
     toast := toast s; isAdding := v; addError := addError s;
     addDebug := addDebug s; showAddDialog := showAddDialog s;
     query := query s; filter := filter s; sort := sort s |}.

Definition setAddError (v : string) (s : AppState) : AppState :=
  {| currentUser := currentUser s; currentName := currentName s;
     isAdmin := isAdmin s; items := items s; consumables := consumables s;
     toast := toast s; isAdding := isAdding s; addError := v;
     addDebug := addDebug s; showAddDialog := showAddDialog s;
     query := query s; filter := filter s; sort := sort s |}.

Definition setAddDebug (v : string) (s : AppState) : AppState :=
  {| currentUser := currentUser s; currentName := currentName s;
     isAdmin := isAdmin s; items := items s; consumables := consumables s;
     toast := toast s; isAdding := isAdding s; addError := addError s;
     addDebug := v; showAddDialog := showAddDialog s;
     query := query s; filter := filter s; sort := sort s |}.

Definition setShowAddDialog (v : bool) (s : AppState) : AppState :=
  {| currentUser := currentUser s; currentName := currentName s;
     isAdmin := isAdmin s; items := items s; consumables := consumables s;
     toast := toast s; isAdding := isAdding s; addError := addError s;
     addDebug := addDebug s; showAddDialog := v;
     query := query s; filter := filter s; sort := sort s |}.

(** [setQuery(q); setFilter(f); setSort(o)] *)
Definition setListView (q f o : string) (s : AppState) : AppState :=
  {| currentUser := currentUser s; currentName := currentName s;
     isAdmin := isAdmin s; items := items s; consumables := consumables s;
     toast := toast s; isAdding := isAdding s; addError := addError s;
     addDebug := addDebug s; showAddDialog := showAddDialog s;
     query := q; filter := f; sort := o |}.

(** *** upsertItem *)

(** What the backend answers during one call of [upsertItem].
    [getUser] is the id of the signed-in user, [None] when
    [supabase.auth.getUser()] reports an error or no user;
    [updateError] is the error message of the update, if it failed. *)
Record UpsertEnv : Type := {
  upsert_getUser : option string;
  upsert_updateError : option string;
}.

(** ["checked" in partial &&
     Object.keys(partial).every((k) => k === "id" || k === "checked")] *)
Definition isCheckedOnlyUpdate (partial : gmap string JsVal) : bool :=
  bool_decide (is_Some (partial !! "checked"))
  && forallb (fun k => bool_decide (k = "id") || bool_decide (k = "checked"))
       (map_to_list partial).*1.

(** The change asks for [checked] and for nothing besides [id] and
    [checked]. *)
Definition checked_only (partial : gmap string JsVal) : Prop :=
  is_Some (partial !! "checked")
  /\ forall k, is_Some (partial !! k) -> k = "id" \/ k = "checked".

(** [partial.k] *)
Definition prop (partial : gmap string JsVal) (k : string) : JsVal :=
  default JUndefined (partial !! k).

(** [if (k in partial) patch.col = conv(partial.k)] *)
Definition copy_if_present (k col : string) (conv : JsVal -> JsVal)
    (partial patch : gmap string JsVal) : gmap string JsVal :=
  match partial !! k with
  | Some v => <[col := conv v]> patch
  | None => patch
  end.

(** [String(v || "").trim()] *)
Definition trimmed_text (v : JsVal) : string :=
  trim (to_String (or_else v (JStr ""))).

(** [Number(v || 1) || 1] *)
Definition quantity (v : JsVal) : Z :=
  num_or (to_Number (or_else v (JNum 1))) 1.

Definition upsert_patch (partial : gmap string JsVal) (userId : string)
    : gmap string JsVal :=
  <["updated_by" := JStr userId]>
    (copy_if_present "checked" "checked" (fun v => JBool (truthy v)) partial
    (copy_if_present "note" "notes" (fun v => JStr (trimmed_text v)) partial
    (copy_if_present "qty" "qty" (fun v => JNum (quantity v)) partial
    (copy_if_present "location" "location" (fun v => JStr (trimmed_text v)) partial
    (copy_if_present "tag" "tag" (fun v => JStr (trimmed_text v)) partial
    (copy_if_present "name" "item_name" (fun v => JStr (trimmed_text v)) partial
       ∅)))))).

(** [typeof id === "string" && id.startsWith("tmp_")] *)
Definition is_tmp_id (id : JsVal) : bool :=
  match id with
  | JStr s => startsWith "tmp_" s
  | _ => false
  end.

Definition upsertItem (env : UpsertEnv) (st : AppState)
    (partial : gmap string JsVal) : AppState * list Call :=
  if negb (isAdmin st) && negb (isCheckedOnlyUpdate partial) then
    (setToast "Only admin can edit item details." st, [])
  else
    let id := prop partial "id" in
    if is_tmp_id id then
      (setToast "Syncing item, please try again." st, [LoadInventoryFromDb])
    else
      match upsert_getUser env with
      | None =>
          (setToast "Session expired. Please log in again." st, [AuthGetUser])
      | Some userId =>
          let update := UpdateInventoryItem (upsert_patch partial userId) id in
          match upsert_updateError env with
          | Some message =>
              (setToast ("Update error: " +:+ message) st,
               [AuthGetUser; update])
          | None =>
              (setToast "Saved" st,
               [AuthGetUser; update; LoadInventoryFromDb])
          end
      end.

(** *** addItem *)

(** What [addItem] receives from the page and the backend.
    [add_isForm]: [e.currentTarget instanceof HTMLFormElement];
    [add_form]: the fields of the submitted form ([FormData]);
    [add_now]: [Date.now()]; [add_uuid]: the result of [genUuid()];
    [add_getUser]: as for [upsertItem]. *)
Record AddEnv : Type := {
  add_isForm : bool;
  add_getUser : option string;
  add_form : gmap string string;
  add_now : Z;
  add_uuid : string;
}.

(** [fd.get(k)]: the field's string, or [null]. *)
Definition fd_get (form : gmap string string) (k : string) : JsVal :=
  match form !! k with
  | Some s => JStr s
  | None => JNull
  end.

(** Where a call of [addItem] stands when it yields to the event loop for
    the last time: it has returned ([Finished]), or it waits for the answer
    to its insert ([AwaitInsert]), the state being what the page shows
    meanwhile. *)
Inductive AddProgress : Type :=
| Finished (st : AppState) (calls : list Call)
| AwaitInsert (st : AppState) (calls : list Call) (itemId : string).

Definition optimisticItem (env : AddEnv) (st : AppState) (userId : string)
    : Item.t :=
  let fd := add_form env in
  {| Item.id := add_uuid env;
     Item.name := trimmed_text (fd_get fd "name");
     Item.tag := trimmed_text (fd_get fd "tag");
     Item.location := trimmed_text (fd_get fd "location");
     Item.qty := quantity (fd_get fd "qty");
     Item.checked := false;
     Item.note := trimmed_text (fd_get fd "note");
     Item.createdBy := str_or (currentUser st) userId;
     Item.createdAt := add_now env;
     Item.updatedBy := str_or (currentUser st) userId;
     Item.updatedAt := add_now env |}.

Definition insertedRow (env : AddEnv) (userId : string) : InventoryRow :=
  let fd := add_form env in
  let notes := trimmed_text (fd_get fd "note") in
  {| Backend.id := add_uuid env;
     item_name := trimmed_text (fd_get fd "name");
     Backend.tag := trimmed_text (fd_get fd "tag");
     Backend.location := trimmed_text (fd_get fd "location");
     Backend.qty := quantity (fd_get fd "qty");
     notes := if bool_decide (notes = "") then None else Some notes;
     Backend.checked := false;
     created_by := userId;
     updated_by := userId |}.

(** [addItem] up to the [await] on the insert. Every exit inside the
    [try] block passes through [finally { setIsAdding(false) }]. *)
Definition addItem_submit (env : AddEnv) (st : AppState) : AddProgress :=
  if negb (isAdmin st) then
    Finished (setToast "Only admin can add items." st) []
  else if negb (add_isForm env) then
    let msg := "Add form not found. Please reload." in
    Finished (setAddDebug msg (setAddError msg (setToast msg st))) []
  else if isAdding st then
    Finished st []
  else
    let st1 := setAddDebug "Submitting..." (setIsAdding true st) in
    match add_getUser env with
    | None =>
        let msg := "Session expired. Please log in again." in
        Finished
          (setIsAdding false
             (setAddDebug msg (setAddError msg (setToast msg st1))))
          [AuthGetUser]
    | Some userId =>
        if bool_decide (trimmed_text (fd_get (add_form env) "name") = "") then
          Finished (setIsAdding false (setAddDebug "Name is required." st1))
            [AuthGetUser]
        else
          let item := optimisticItem env st1 userId in
          AwaitInsert
            (setAddDebug "Staged locally. Sending to Supabase..."
               (setItems (fun prev => item :: prev) st1))
            [AuthGetUser; InsertInventoryItem (insertedRow env userId)]
            (add_uuid env)
    end.

(** The rest of [addItem], run on the state of the page at the time the
    insert is answered with [insertError]. *)
Definition addItem_resume (insertError : option string) (itemId : string)
    (st : AppState) : AppState :=
  match insertError with
  | Some message =>
      let msg := "Insert error: " +:+ message in
      setIsAdding false
        (setAddDebug msg (setAddError msg (setToast msg
           (setItems
              (fun prev =>
                 List.filter (fun x => negb (bool_decide (Item.id x = itemId)))
                   prev)
              st))))
  | None =>
      setIsAdding false
        (setToast "Added"
           (setShowAddDialog false
              (setAddDebug "Added."
                 (setAddError "" (setListView "" "all" "recent" st)))))
  end.

(** A whole call, when nothing else touches the state while it waits. *)
Definition addItem (env : AddEnv) (insertError : option string)
    (st : AppState) : AppState * list Call :=
  match addItem_submit env st with
  | Finished st' calls => (st', calls)
  | AwaitInsert st' calls itemId =>
      (addItem_resume insertError itemId st', calls)
  end.

(** *** adjustConsumable *)

(** The answer of [supabase.functions.invoke]: an error, with the text
    read from the body of the response ([detailed]) and the error's own
    message, or the data's [message] (empty when there is none). *)
Inductive InvokeResult : Type :=
| InvokeError (detailed message : string)
| InvokeData (message : string).

(** What the backend answers during one call of [adjustConsumable].
    [adj_accessToken] is [sessionData?.session?.access_token || ""]. *)
Record AdjustEnv : Type := {
  adj_now : Z;
  adj_updateError : option string;
  adj_sessionError : bool;
  adj_accessToken : string;
  adj_invoke : InvokeResult;
}.

(** [Number(n || 0)] on a number. *)
Definition number_or_zero (n : Z) : Z := if n =? 0 then 0 else n.

(** [currentName || currentUser || "Unknown"] *)
Definition actorName (st : AppState) : string :=
  str_or (currentName st) (str_or (currentUser st) "Unknown").

Definition invokeToast (r : InvokeResult) (st : AppState) : AppState :=
  match r with
  | InvokeError detailed message =>
      let msg :=
        if negb (bool_decide (detailed = "")) then
          "Low-stock email failed: " +:+ detailed
        else if negb (bool_decide (message = "")) then
          "Low-stock email failed: " +:+ message
        else "Low-stock email trigger failed. Check Edge Function logs." in
      setToast (slice0 220 msg) st
  | InvokeData message =>
      if negb (bool_decide (message = "")) then setToast message st else st
  end.

Definition adjustConsumable (env : AdjustEnv) (st : AppState)
    (id : string) (delta : Z) : AppState * list Call :=
  match
    List.find (fun c => bool_decide (Consumable.id c = id)) (consumables st)
  with
  | None => (st, [])
  | Some current =>
      let nextOnHand :=
        Z.max 0 (number_or_zero (Consumable.onHand current) + delta) in
      let currentOnHand := number_or_zero (Consumable.onHand current) in
      let minLevel := number_or_zero (Consumable.minLevel current) in
      let update :=
        UpdateConsumable
          {| on_hand := nextOnHand;
             updated_at := adj_now env;
             updated_by_name := actorName st;
             updated_by_username := str_or (currentUser st) "unknown" |}
          id in
      match adj_updateError env with
      | Some message =>
          (setToast ("Consumable update error: " +:+ message) st, [update])
      | None =>
          let wasAboveMin := minLevel <? currentOnHand in
          let isNowBelowMin := nextOnHand <=? minLevel in
          let st1 :=
            if (delta <? 0) && negb (isAdmin st) then
              setToast "No email trigger: you are not admin." st
            else if (delta <? 0) && negb wasAboveMin then
              setToast
                "No email trigger: item was already at/below min level." st
            else if (delta <? 0) && wasAboveMin && negb isNowBelowMin then
              setToast
                ("No email trigger: stock is still above min ("
                 +:+ pretty nextOnHand +:+ " > " +:+ pretty minLevel +:+ ").")
                st
            else st in
          if wasAboveMin && isNowBelowMin && isAdmin st then
            if adj_sessionError env
               || bool_decide (adj_accessToken env = "") then
              (setToast
                 "Low-stock email failed: session expired. Please log in again."
                 st1,
               [update; AuthGetSession])
            else
              let payload :=
                {| consumable_id := id;
                   Backend.name := str_or (Consumable.name current) "Unknown";
                   payload_on_hand := nextOnHand;
                   min_level := minLevel;
                   payload_location :=
                     str_or (Consumable.location current) "Unknown";
                   Backend.unit := str_or (Consumable.unit current) "pcs";
                   payload_updated_by_name := actorName st |} in
              (invokeToast (adj_invoke env) st1,
               [update; AuthGetSession;
                InvokeNotifyLowStock payload (adj_accessToken env);
                LoadConsumablesFromDb])
          else (st1, [update; LoadConsumablesFromDb])
      end
  end.

(** A low-stock crossing: above the minimum before, at or below it after
    the clamped adjustment. *)
Definition crossing (current : Consumable.t) (delta : Z) : Prop :=
  Consumable.minLevel current < Consumable.onHand current
  /\ Z.max 0 (Consumable.onHand current + delta) <= Consumable.minLevel current.

(** Whether a run issued a call to the notification function. *)
Definition notified (r : AppState * list Call) : bool :=
  existsb is_notify r.2.

(** The values written to [on_hand] during a run. *)
Definition on_hand_writes (r : AppState * list Call) : list Z :=
  omap consumable_write r.2.

(** *** ConsumablesPage *)

(** [locationFilter
      ? consumables.filter((c) => String(c.location || "") === locationFilter)
      : []] *)
Definition filteredConsumables (locationFilter : string)
    (consumables : list Consumable.t) : list Consumable.t :=
  if negb (bool_decide (locationFilter = "")) then
    List.filter
      (fun c => bool_decide (str_or (Consumable.location c) "" = locationFilter))
      consumables
  else [].

End App.

(** ** The notification function (notify-low-stock) *)

Module Notify.
Import JS Backend.

(** The secrets of the function ([Deno.env.get]); [None] when unset. *)
Record Secrets : Type := {
  BREVO_API_KEY : option string;
  BREVO_FROM_EMAIL : option string;
  BREVO_FROM_NAME : option string;
}.

Definition brevoKey (s : Secrets) : string := default "" (BREVO_API_KEY s).

Definition fromEmail (s : Secrets) : string :=
  str_or (default "" (BREVO_FROM_EMAIL s)) "alerts@inventory-vibe.local".

Definition fromName (s : Secrets) : string :=
  str_or (default "" (BREVO_FROM_NAME s)) "Inventory Vibe".

(** What the function passes to [insert] on [notification_logs]. *)
Record LogEntry : Type := {
  entry_consumable_id : string;
  notification_type : string;
  status : string;
  sent_to_emails : list string;
  trigger_value : Z;
  error_message : option string;
}.

(** A stored row of [notification_logs]. *)
Record LogRow : Type := {
  entry : LogEntry;
  sent_at : Z;
}.

(** A row of [user_profiles]; [real_email] may be [null]. *)
Record UserProfile : Type := {
  user_id : string;
  profile_email : string;
  real_email : option string;
}.

(** The database behind the service-role client. [auth_users] are the
    accounts of the auth service by id, which carry the metadata the role
    of a user derives from; the function does not read them. *)
Record Db : Type := {
  notification_logs : list LogRow;
  user_profiles : list UserProfile;
  auth_users : gmap string Identity.User;
}.

(** Modelled from the spec: the declaration of table [notification_logs]
    is not among the sources. A row is stored with [sent_at] set to the
    time of the insert, which is what the same-day check presumes. The
    function does not inspect the answer to an insert. *)
Definition insert_log (now : Z) (e : LogEntry) (db : Db) : Db :=
  {| notification_logs :=
       notification_logs db ++ [ {| entry := e; sent_at := now |} ];
     user_profiles := user_profiles db;
     auth_users := auth_users db |}.

Inductive RequestBody : Type :=
| NotJson (message : string)
| Json (payload : LowStockPayload).

Record Request : Type := {
  method : string;
  body : RequestBody;
}.

(** The answer of [fetch] to the e-mail API: a thrown error or a response
    with an HTTP status. *)
Inductive FetchResult : Type :=
| FetchThrows (message : string)
| FetchResponse (http_status : Z).

(** The surroundings of one invocation: the clock, the offset of local
    time from UTC in milliseconds, whether each of the two queries is
    answered with an error, and the answer of the e-mail API. *)
Record ServeEnv : Type := {
  now : Z;
  utcOffset : Z;
  checkError : bool;
  adminError : bool;
  brevo : FetchResult;
}.

(** [new Date().setHours(0, 0, 0, 0)]: the start of the local day. *)
Definition midnight (env : ServeEnv) : Z :=
  now env - (now env + utcOffset env) mod 86400000.

Inductive Body : Type :=
| Text (s : string)
| ErrorJson (error : string)
| SuccessJson (message : string) (sent_to : option (list string)).

Record Response : Type := {
  http_status_code : Z;
  response_body : Body;
}.

Definition is_char (n : nat) (c : ascii) : bool := (code c =? n)%nat.

(** The five replacements of [escapeHtml], the ampersand first: the
    characters of codes 38, 60, 62, 34 and 39 become entities. *)
Definition escapeHtml (text : string) : string :=
  replace_each (is_char 39) "&#039;"
    (replace_each (is_char 34) "&quot;"
       (replace_each (is_char 62) "&gt;"
          (replace_each (is_char 60) "&lt;"
             (replace_each (is_char 38) "&amp;" text)))).

(** The values interpolated into the HTML of the e-mail, in order; the
    markup between them is constant. *)
Definition htmlContent (p : LowStockPayload) : list string :=
  [ escapeHtml (Backend.name p);
    escapeHtml (payload_location p);
    pretty (payload_on_hand p) +:+ " " +:+ escapeHtml (Backend.unit p);
    pretty (min_level p) +:+ " " +:+ escapeHtml (Backend.unit p);
    escapeHtml (payload_updated_by_name p) ].

(** A request to the transactional e-mail API. *)
Record Email : Type := {
  api_key : string;
  sender : string * string;
  to : list string;
  subject : string;
  html : list string;
}.

(** The rows the same-day check selects; [None] when the query fails. *)
Definition recentNotif (env : ServeEnv) (db : Db) (p : LowStockPayload)
    : option (list LogRow) :=
  if checkError env then None
  else
    Some (take 1
      (List.filter
         (fun r =>
            bool_decide (entry_consumable_id (entry r) = consumable_id p)
            && (midnight env <=? sent_at r)
            && bool_decide (status (entry r) = "sent"))
         (notification_logs db))).

(** [recentNotif && recentNotif.length > 0] *)
Definition duplicate_found (env : ServeEnv) (db : Db) (p : LowStockPayload)
    : bool :=
  match recentNotif env db p with
  | Some (_ :: _) => true
  | _ => false
  end.

(** [from("user_profiles").select(..).not("real_email", "is", null)] *)
Definition adminUsers (env : ServeEnv) (db : Db) : option (list UserProfile) :=
  if adminError env then None
  else
    Some (List.filter (fun u => bool_decide (is_Some (real_email u)))
            (user_profiles db)).

Definition is_real_email (email : string) : bool :=
  negb (bool_decide (email = ""))
  && negb (endsWith "@vibe-user.example.com" email)
  && includes "@" email.

Definition realEmails (users : list UserProfile) : list string :=
  List.filter is_real_email (List.map (fun u => default "" (real_email u)) users).

Definition logEntry (p : LowStockPayload) (st : string)
    (emails : list string) (err : option string) : LogEntry :=
  {| entry_consumable_id := consumable_id p;
     notification_type := "low_stock";
     status := st;
     sent_to_emails := emails;
     trigger_value := payload_on_hand p;
     error_message := err |}.

Definition json (code : Z) (b : Body) : Response :=
  {| http_status_code := code; response_body := b |}.

(** [response.ok] *)
Definition ok (http_status : Z) : bool :=
  (200 <=? http_status) && (http_status <=? 299).

(** The handler: the response, the database afterwards, and the requests
    made to the e-mail API. *)
Definition serve (secrets : Secrets) (env : ServeEnv) (db : Db)
    (req : Request) : Response * Db * list Email :=
  if bool_decide (method req = "OPTIONS") then (json 200 (Text "ok"), db, [])
  else if negb (bool_decide (method req = "POST")) then
    (json 405 (ErrorJson "Method not allowed"), db, [])
  else if bool_decide (brevoKey secrets = "") then
    (json 500 (ErrorJson "Missing BREVO_API_KEY in Edge Function secrets"),
     db, [])
  else
    match body req with
    | NotJson message => (json 500 (ErrorJson message), db, [])
    | Json payload =>
        if bool_decide (consumable_id payload = "")
           || bool_decide (Backend.name payload = "") then
          (json 400 (ErrorJson "Missing required fields"), db, [])
        else
          if duplicate_found env db payload then
            (json 200
               (SuccessJson "Notification already sent today for this item"
                  None),
             db, [])
          else
              match adminUsers env db with
              | None =>
                  (json 500 (ErrorJson "Failed to fetch admin users"), db, [])
              | Some [] =>
                  (json 400 (ErrorJson "No admin users with email configured"),
                   insert_log (now env)
                     (logEntry payload "failed" []
                        (Some "No admin users found")) db,
                   [])
              | Some users =>
                  let emails := realEmails users in
                  match emails with
                  | [] =>
                      (json 400
                         (ErrorJson
                            "No admin users with real email addresses configured"),
                       insert_log (now env)
                         (logEntry payload "failed" []
                            (Some "No admin users with real email addresses"))
                         db,
                       [])
                  | _ :: _ =>
                      let mail :=
                        {| api_key := brevoKey secrets;
                           sender := (fromEmail secrets, fromName secrets);
                           to := emails;
                           subject :=
                             "LOW STOCK ALERT: " +:+ Backend.name payload;
                           html := htmlContent payload |} in
                      match brevo env with
                      | FetchThrows message =>
                          (json 500 (ErrorJson message), db, [mail])
                      | FetchResponse st =>
                          if negb (ok st) then
                            let err := "Brevo error: " +:+ pretty st in
                            (json 500 (ErrorJson err),
                             insert_log (now env)
                               (logEntry payload "failed" emails (Some err)) db,
                             [mail])
                          else
                            (json 200
                               (SuccessJson
                                  ("Low stock notification sent to "
                                   +:+ pretty (length emails) +:+ " admin(s)")
                                  (Some emails)),
                             insert_log (now env)
                               (logEntry payload "sent" emails None) db,
                             [mail])
                      end
                  end
              end
    end.

(** The three parts of a run. *)
Definition response_of (r : Response * Db * list Email) : Response := r.1.1.
Definition db_of (r : Response * Db * list Email) : Db := r.1.2.
Definition mails_of (r : Response * Db * list Email) : list Email := r.2.

(** The profiles the query for the recipients returns when it succeeds. *)
Definition profiles_with_real_email (db : Db) : list UserProfile :=
  List.filter (fun u => bool_decide (is_Some (real_email u))) (user_profiles db).

(** Whether the account behind a profile is an admin, by the rule of the
    client ([Identity.isAdminIdentity]). *)
Definition is_admin_profile (db : Db) (u : UserProfile) : bool :=
  Identity.isAdminIdentity (auth_users db !! user_id u) "".

End Notify.

(** ** Concrete data for the worked instances *)

Module Sample.
Import JS Backend App.

Definition gloves : Consumable.t :=
  {| Consumable.id := "c1"; Consumable.name := "Gloves";
     Consumable.category := "Safety"; Consumable.unit := "box";
     Consumable.location := "Clancy"; Consumable.onHand := 3;
     Consumable.minLevel := 2; Consumable.changedByName := "Ann";
     Consumable.changedByUsername := "ann"; Consumable.updatedAt := 0 |}.

Definition tape : Consumable.t :=
  {| Consumable.id := "c2"; Consumable.name := "Tape";
     Consumable.category := ""; Consumable.unit := "roll";
     Consumable.location := "Scientia"; Consumable.onHand := 9;
     Consumable.minLevel := 1; Consumable.changedByName := "Ann";
     Consumable.changedByUsername := "ann"; Consumable.updatedAt := 0 |}.

Definition tripod : Item.t :=
  {| Item.id := "i1"; Item.name := "Tripod"; Item.tag := "T-1";
     Item.location := "Clancy"; Item.qty := 1; Item.checked := false;
     Item.note := ""; Item.createdBy := "ann"; Item.createdAt := 0;
     Item.updatedBy := "ann"; Item.updatedAt := 0 |}.

(** A signed-in page; [admin] tells the role. *)
Definition page (admin : bool) : AppState :=
  {| currentUser := "ann"; currentName := "Ann"; isAdmin := admin;
     items := [tripod]; consumables := [gloves; tape];
     toast := ""; isAdding := false; addError := ""; addDebug := "";
     showAddDialog := true; query := ""; filter := "all"; sort := "recent" |}.

(** A backend that answers every call of [adjustConsumable] without
    error. *)
Definition adjust_ok : AdjustEnv :=
  {| adj_now := 1000; adj_updateError := None; adj_sessionError := false;
     adj_accessToken := "token";
     adj_invoke := InvokeData "Low stock notification sent to 1 admin(s)" |}.

Definition upsert_ok : UpsertEnv :=
  {| upsert_getUser := Some "u-ann"; upsert_updateError := None |}.

(** [{ id: "i1", checked: true }] and [{ id: "i1", name: "Stand" }] *)
Definition toggle : gmap string JsVal :=
  <["id" := JStr "i1"]> (<["checked" := JBool true]> ∅).

Definition rename : gmap string JsVal :=
  <["id" := JStr "i1"]> (<["name" := JStr "Stand"]> ∅).

Definition add_env : AddEnv :=
  {| add_isForm := true; add_getUser := Some "u-ann";
     add_form := <["name" := " Lamp "]> (<["qty" := "2"]> ∅);
     add_now := 5000; add_uuid := "i2" |}.

End Sample.

Module NotifySample.
Import JS Backend Notify.

Definition day : Z := 86400000.

Definition secrets : Secrets :=
  {| BREVO_API_KEY := Some "key"; BREVO_FROM_EMAIL := None;
     BREVO_FROM_NAME := None |}.

(** One hour into day 20000 (UTC); the e-mail API answers 201. *)
Definition env : ServeEnv :=
  {| now := 20000 * day + 3600000; utcOffset := 0; checkError := false;
     adminError := false; brevo := FetchResponse 201 |}.

Definition with_check_error (e : ServeEnv) : ServeEnv :=
  {| now := now e; utcOffset := utcOffset e; checkError := true;
     adminError := adminError e; brevo := brevo e |}.



Definition gloves_low : LowStockPayload :=
  {| consumable_id := "c1"; Backend.name := "Gloves"; payload_on_hand := 2;
     min_level := 2; payload_location := "Clancy"; Backend.unit := "box";
     payload_updated_by_name := "Ann" |}.

Definition unnamed_low : LowStockPayload :=
  {| consumable_id := "c1"; Backend.name := ""; payload_on_hand := 2;
     min_level := 2; payload_location := "Clancy"; Backend.unit := "box";
     payload_updated_by_name := "Ann" |}.

Definition post (p : LowStockPayload) : Request :=
  {| method := "POST"; body := Json p |}.

(** The admin, and Bob, who signed up with the user name [bob] and has
    no role. *)
Definition admin_account : Identity.User :=
  {| Identity.email := JStr "admin@vibe-user.example.com";
     Identity.user_metadata :=
       Some {| Identity.username := JStr "admin"; Identity.role := JUndefined |} |}.

Definition bob_account : Identity.User :=
  {| Identity.email := JStr "bob@vibe-user.example.com";
     Identity.user_metadata :=
       Some {| Identity.username := JStr "bob"; Identity.role := JUndefined |} |}.

Definition admin_profile : UserProfile :=
  {| user_id := "u-admin"; profile_email := "admin@vibe-user.example.com";
     real_email := Some "boss@corp.example" |}.

Definition bob_profile : UserProfile :=
  {| user_id := "u-bob"; profile_email := "bob@vibe-user.example.com";
     real_email := Some "bob@mail.example" |}.

(** The log row of an alert sent for [c1] half an hour after midnight. *)
Definition sent_today : LogRow :=
  {| entry := logEntry gloves_low "sent" ["boss@corp.example"] None;
     sent_at := 20000 * day + 1800000 |}.

Definition db (logs : list LogRow) : Db :=
  {| notification_logs := logs;
     user_profiles := [admin_profile; bob_profile];
     auth_users :=
       <["u-admin" := admin_account]> (<["u-bob" := bob_account]> ∅) |}.

End NotifySample.

(** ** Predicates and helpers on strings used by the further properties *)

Module Text.
Import JS.

(** Every character of [s] satisfies [p]. *)
Fixpoint all_chars (p : ascii -> bool) (s : string) : bool :=
  match s with
  | EmptyString => true
  | String c r => p c && all_chars p r
  end.

(** [s.split("@")[0]]: the characters before the first at sign, the whole
    string when it has none. *)
Fixpoint before_at (s : string) : string :=
  match s with
  | EmptyString => EmptyString
  | String c r => if (code c =? 64)%nat then EmptyString else String c (before_at r)
  end.

Definition not_space (c : ascii) : bool := negb (is_space c).

(** The string is empty or starts with a character that is no white
    space; the string is empty or ends with such a character. *)
Definition starts_clean (s : string) : bool :=
  match s with
  | EmptyString => true
  | String c _ => negb (is_space c)
  end.

Fixpoint ends_clean (s : string) : bool :=
  match s with
  | EmptyString => true
  | String c EmptyString => negb (is_space c)
  | String _ r => ends_clean r
  end.

(** The characters that open or close markup or an attribute value:
    the less-than and greater-than signs and the two quotes. *)
Definition is_markup (c : ascii) : bool :=
  (code c =? 60)%nat || (code c =? 62)%nat
  || (code c =? 34)%nat || (code c =? 39)%nat.

(** The five characters [escapeHtml] replaces. *)
Definition is_escaped (c : ascii) : bool :=
  (code c =? 38)%nat || is_markup c.

End Text.

(** ** The lists and counters the page derives from its state *)

Module Views.
Import JS App.

(** [arr.sort(cmp)] on a copy: a stable sort; [cmp a b] is negative when
    [a] goes first. Elements are inserted from the right, each before the
    first element it does not follow. *)
Fixpoint insert_by {A : Type} (cmp : A -> A -> Z) (x : A) (l : list A)
    : list A :=
  match l with
  | [] => [x]
  | y :: r => if cmp x y <=? 0 then x :: l else y :: insert_by cmp x r
  end.

Definition sort_by {A : Type} (cmp : A -> A -> Z) (l : list A) : list A :=
  List.fold_right (insert_by cmp) [] l.

(** The counters of the equipment page. *)
Record Stats : Type := {
  total : Z;
  checked : Z;
  missing : Z;
}.

Definition stats (items : list Item.t) : Stats :=
  let total := Z.of_nat (length items) in
  let checked := Z.of_nat (length (List.filter Item.checked items)) in
  {| total := total; checked := checked; missing := total - checked |}.

(** [Number(c.onHand || 0) <= Number(c.minLevel || 0)] *)
Definition is_low (c : Consumable.t) : bool :=
  number_or_zero (Consumable.onHand c) <=? number_or_zero (Consumable.minLevel c).

Record ConsumableStats : Type := {
  cs_total : Z;
  low : Z;
  healthy : Z;
}.

Definition consumableStats (consumables : list Consumable.t)
    : ConsumableStats :=
  let total := Z.of_nat (length consumables) in
  let low := Z.of_nat (length (List.filter is_low consumables)) in
  {| cs_total := total; low := low; healthy := total - low |}.

(** [(b.updatedAt || 0) - (a.updatedAt || 0)] *)
Definition by_recent_item (a b : Item.t) : Z :=
  number_or_zero (Item.updatedAt b) - number_or_zero (Item.updatedAt a).

Definition by_recent_consumable (a b : Consumable.t) : Z :=
  number_or_zero (Consumable.updatedAt b)
  - number_or_zero (Consumable.updatedAt a).

(** The items an equipment query keeps: all of them for an empty query,
    else those whose name, tag, location and note, joined by spaces and
    lowercased, include it. *)
Definition matches_query (q : string) (i : Item.t) : bool :=
  if bool_decide (q = "") then true
  else
    includes q
      (toLowerCase
         (Item.name i +:+ " " +:+ Item.tag i +:+ " " +:+ Item.location i
          +:+ " " +:+ Item.note i)).

(** What the status filter keeps: the checked items, the missing ones,
    or all of them. *)
Definition status_matches (filter : string) (i : Item.t) : bool :=
  if bool_decide (filter = "checked") then Item.checked i
  else if bool_decide (filter = "missing") then negb (Item.checked i)
  else true.

Section Filtered.

(** [String.prototype.localeCompare], which depends on the locale of the
    browser. *)
Variable localeCompare : string -> string -> Z.

(** The list of the equipment page ([filtered]). *)
Definition filtered (items : list Item.t) (query filter sort : string)
    : list Item.t :=
  let q := toLowerCase (trim query) in
  let out := List.filter (matches_query q) items in
  let out :=
    if bool_decide (filter = "checked") then List.filter Item.checked out
    else out in
  let out :=
    if bool_decide (filter = "missing")
    then List.filter (fun i => negb (Item.checked i)) out
    else out in
  let out :=
    if bool_decide (sort = "recent") then sort_by by_recent_item out else out in
  let out :=
    if bool_decide (sort = "name")
    then sort_by (fun a b => localeCompare (Item.name a) (Item.name b)) out
    else out in
  let out :=
    if bool_decide (sort = "location")
    then sort_by
           (fun a b =>
              localeCompare (str_or (Item.location a) "")
                (str_or (Item.location b) ""))
           out
    else out in
  out.

End Filtered.

(** One hit of the search box. *)
Record SearchResult : Type := {
  id : string;
  name : string;
  page : string;
  meta : string;
}.

Definition item_hits (q : string) (items : list Item.t) : list SearchResult :=
  List.map
    (fun item =>
       {| id := Item.id item; name := str_or (Item.name item) "";
          page := "equipment";
          meta := str_or (Item.location item) "No location" |})
    (List.filter
       (fun item => includes q (toLowerCase (str_or (Item.name item) "")))
       items).

Definition consumable_hits (q : string) (rows : list Consumable.t)
    : list SearchResult :=
  List.map
    (fun row =>
       {| id := Consumable.id row; name := str_or (Consumable.name row) "";
          page := "consumables";
          meta := str_or (Consumable.location row) "No location" |})
    (List.filter
       (fun row => includes q (toLowerCase (str_or (Consumable.name row) "")))
       rows).

Definition globalSearchResults (globalSearch : string) (items : list Item.t)
    (consumables : list Consumable.t) (isAdmin : bool) : list SearchResult :=
  let q := toLowerCase (trim globalSearch) in
  if bool_decide (q = "") then []
  else
    take 8
      (List.filter
         (fun r => negb (bool_decide (page r = "equipment")) || isAdmin)
         (item_hits q items ++ consumable_hits q consumables)).

(** The two lists of the overview page. *)
Definition recentConsumables (consumables : list Consumable.t)
    : list Consumable.t :=
  take 5 (sort_by by_recent_consumable consumables).

Definition lowRows (consumables : list Consumable.t) : list Consumable.t :=
  take 5 (List.filter is_low consumables).

End Views.

(** ** Further handlers of the page: deleting, adding consumables, bulk
    checks and feedback *)

Module Handlers.
Import JS Backend App.

Definition CONSUMABLE_LOCATIONS : list string :=
  ["Clancy"; "Scientia"; "Science Theatre"].

(** The row [addConsumable] inserts into [consumables_items]. *)
Record ConsumableRow : Type := {
  id : string;
  name : string;
  category : string;
  unit : string;
  location : string;
  on_hand : Z;
  min_level : Z;
  updated_by_name : string;
  updated_by_username : string;
}.

(** The calls of these handlers; [Base] holds a call of the handlers
    above. *)
Inductive Op : Type :=
| Base (c : Call)
| DeleteInventoryItem (id : string)
| UpdateAllInventoryItems (checked : bool) (updated_by : string)
| CountInventoryItems
| CountInventoryItemsWhere (checked : bool)
| InsertConsumable (row : ConsumableRow)
| DeleteConsumable (id : string)
| UpdateFeedbackResolved (resolved : bool) (id : string)
| LoadFeedbacksFromDb.

(** [removeItem(id)]; [deleteError] is the error of the delete, if any. *)
Definition removeItem (deleteError : option string) (st : AppState)
    (id : string) : AppState * list Op :=
  if negb (isAdmin st) then
    (setToast "Only admin can delete items." st, [])
  else
    match deleteError with
    | Some message =>
        (setToast ("Delete error: " +:+ message) st, [DeleteInventoryItem id])
    | None =>
        (setToast "Deleted" st,
         [DeleteInventoryItem id; Base LoadInventoryFromDb])
    end.

Definition removeConsumable (deleteError : option string) (st : AppState)
    (id : string) : AppState * list Op :=
  if negb (isAdmin st) then
    (setToast "You don't have priviledge, please contact admin" st, [])
  else
    match deleteError with
    | Some message =>
        (setToast ("Consumable delete error: " +:+ message) st,
         [DeleteConsumable id])
    | None =>
        (setToast "Consumable removed" st,
         [DeleteConsumable id; Base LoadConsumablesFromDb])
    end.

(** [toggleFeedbackResolved(id, nextResolved)], called with a boolean. *)
Definition toggleFeedbackResolved (updateError : option string)
    (st : AppState) (id : string) (nextResolved : bool)
    : AppState * list Op :=
  if negb (isAdmin st) then (st, [])
  else
    match updateError with
    | Some message =>
        (setToast ("Feedback update error: " +:+ message) st,
         [UpdateFeedbackResolved nextResolved id])
    | None =>
        (setToast (if nextResolved then "Marked resolved"
                   else "Marked unresolved") st,
         [UpdateFeedbackResolved nextResolved id; LoadFeedbacksFromDb])
    end.

(** What [addConsumable] receives: the fields of the form, the result of
    [genUuid()] and the error of the insert, if any. *)
Record AddConsumableEnv : Type := {
  ac_form : gmap string string;
  ac_uuid : string;
  ac_insertError : option string;
}.

(** [Number(v || 0) || 0] *)
Definition count_field (v : JsVal) : Z :=
  num_or (to_Number (or_else v (JNum 0))) 0.

Definition consumableRow (env : AddConsumableEnv) (st : AppState)
    : ConsumableRow :=
  let fd := ac_form env in
  {| id := ac_uuid env;
     name := trimmed_text (fd_get fd "name");
     category := trimmed_text (fd_get fd "category");
     unit := str_or (trimmed_text (fd_get fd "unit")) "pcs";
     location :=
       str_or (trimmed_text (fd_get fd "location"))
         (default "" (head CONSUMABLE_LOCATIONS));
     on_hand := count_field (fd_get fd "onHand");
     min_level := count_field (fd_get fd "minLevel");
     updated_by_name := actorName st;
     updated_by_username := str_or (currentUser st) "unknown" |}.

(** [addConsumable(e)]: the value returned, the state and the calls. *)
Definition addConsumable (env : AddConsumableEnv) (st : AppState)
    : bool * AppState * list Op :=
  if negb (isAdmin st) then
    (false, setToast "You don't have priviledge, please contact admin" st, [])
  else if bool_decide (trimmed_text (fd_get (ac_form env) "name") = "") then
    (false, st, [])
  else
    let row := consumableRow env st in
    match ac_insertError env with
    | Some message =>
        (false, setToast ("Consumable add error: " +:+ message) st,
         [InsertConsumable row])
    | None =>
        (true, setToast "Consumable added" st,
         [InsertConsumable row; Base LoadConsumablesFromDb])
    end.

(** What the backend answers during [setAllChecked]: the signed-in user,
    the error of the bulk update, the two counts ([None] for [null]), and
    the reading of [Date.now()] taken for the item at each index. *)
Record BulkEnv : Type := {
  bulk_getUser : option string;
  bulk_updateError : option string;
  bulk_count : option Z;
  bulk_changedCount : option Z;
  bulk_now : nat -> Z;
}.

(** [count && count > 0] *)
Definition has_rows (count : option Z) : bool :=
  match count with
  | Some c => negb (c =? 0) && (0 <? c)
  | None => false
  end.

(** [!changedCount || changedCount === 0]: among numbers both tests
    hold for 0 only. *)
Definition none_changed (changedCount : option Z) : bool :=
  match changedCount with
  | Some c => c =? 0
  | None => true
  end.

(** [{ ...x, checked, updatedAt: Date.now(), updatedBy }] *)
Definition mark (checkedValue : bool) (updatedBy : string) (now : Z)
    (x : Item.t) : Item.t :=
  {| Item.id := Item.id x; Item.name := Item.name x; Item.tag := Item.tag x;
     Item.location := Item.location x; Item.qty := Item.qty x;
     Item.checked := checkedValue; Item.note := Item.note x;
     Item.createdBy := Item.createdBy x; Item.createdAt := Item.createdAt x;
     Item.updatedBy := updatedBy; Item.updatedAt := now |}.

Definition setAllChecked (env : BulkEnv) (st : AppState)
    (checkedValue : bool) : AppState * list Op :=
  match bulk_getUser env with
  | None =>
      (setToast "Session expired. Please log in again." st, [Base AuthGetUser])
  | Some userId =>
      let update := UpdateAllInventoryItems checkedValue userId in
      match bulk_updateError env with
      | Some message =>
          (setToast ("Bulk update error: " +:+ message) st,
           [Base AuthGetUser; update])
      | None =>
          if has_rows (bulk_count env)
             && none_changed (bulk_changedCount env) then
            (setToast "Policy blocks shared updates. Update RLS in Supabase." st,
             [Base AuthGetUser; update; CountInventoryItems;
              CountInventoryItemsWhere checkedValue])
          else
            (setToast (if checkedValue then "All checked" else "Reset")
               (setItems
                  (fun prev =>
                     imap
                       (fun k x =>
                          mark checkedValue (str_or (currentUser st) userId)
                            (bulk_now env k) x)
                       prev)
                  st),
             ([Base AuthGetUser; update; CountInventoryItems]
              ++ (if has_rows (bulk_count env)
                  then [CountInventoryItemsWhere checkedValue] else [])
              ++ [Base LoadInventoryFromDb])%list)
      end
  end.

(** The bulk update went through: a user is signed in, the update was
    answered without error, and the counts do not show it blocked. *)
Definition bulk_applied (env : BulkEnv) : Prop :=
  is_Some (bulk_getUser env)
  /\ bulk_updateError env = None
  /\ has_rows (bulk_count env) && none_changed (bulk_changedCount env) = false.

Definition resetChecks (env : BulkEnv) (st : AppState) :=
  setAllChecked env st false.

Definition markAllChecked (env : BulkEnv) (st : AppState) :=
  setAllChecked env st true.

End Handlers.

(** ** Signing up, and the profile row of a signed-in user *)

Module Auth.
Import JS Identity Notify.

(** [String(nameRaw || "").trim().replace(/\s+/g, " ")] *)
Definition normalizeDisplayName (nameRaw : JsVal) : string :=
  replace_runs is_space " " (trim (to_String (or_else nameRaw (JStr "")))).

(** The argument of [supabase.auth.signUp]. *)
Record SignUp : Type := {
  su_email : string;
  su_password : string;
  su_username : string;
  su_full_name : string;
  su_real_email : string;
}.

(** [onSignup(nameRaw, usernameRaw, emailRaw, password)] on the strings of
    the form: the toast shown and the calls to [signUp]; [signUpError] is
    the message of the error the call is answered with, if any. *)
Definition onSignup (signUpError : option string)
    (nameRaw usernameRaw emailRaw password : string)
    : string * list SignUp :=
  let name := normalizeDisplayName (JStr nameRaw) in
  let username := normalizeUsername (JStr usernameRaw) in
  if bool_decide (name = "") || bool_decide (username = "")
     || bool_decide (password = "") then
    ("Enter name + username + password", [])
  else if bool_decide (emailRaw = "") || negb (includes "@" emailRaw) then
    ("Enter a valid email address", [])
  else
    let email := usernameToAuthEmail usernameRaw in
    if bool_decide (email = "") then ("Invalid username format", [])
    else
      let call :=
        {| su_email := email; su_password := password;
           su_username := username; su_full_name := name;
           su_real_email := emailRaw |} in
      match signUpError with
      | Some message => (message, [call])
      | None => ("Signed up. Now log in.", [call])
      end.

(** The user object as [upsertCurrentUserProfile] reads it; an absent
    property is the empty string. *)
Record Account : Type := {
  account_id : string;
  account_email : string;
  account_real_email : string;
}.

(** [upsert(row, { onConflict: "user_id" })]: the row replaces the one
    with its [user_id], or is added. *)
Definition upsert_row (row : UserProfile) (rows : list UserProfile)
    : list UserProfile :=
  if existsb (fun r => bool_decide (user_id r = user_id row)) rows then
    List.map
      (fun r => if bool_decide (user_id r = user_id row) then row else r)
      rows
  else rows ++ [row].

(** [upsertCurrentUserProfile(user, realEmail)] *)
Definition upsertCurrentUserProfile (user : option Account)
    (realEmail : string) (db : Db) : Db :=
  match user with
  | None => db
  | Some u =>
      if bool_decide (account_id u = "") then db
      else
        let email :=
          str_or realEmail
            (str_or (account_real_email u) (str_or (account_email u) "")) in
        {| notification_logs := notification_logs db;
           user_profiles :=
             upsert_row
               {| user_id := account_id u;
                  profile_email := str_or (account_email u) "";
                  real_email := Some email |}
               (user_profiles db);
           auth_users := auth_users db |}
  end.

End Auth.

(** ** Worked runs of the model *)

Section Runs.
Import JS Backend App.

Example usernameToAuthEmail_run :
  Identity.usernameToAuthEmail "  Jo hn.Doe!_9 "
  = "john.doe_9@vibe-user.example.com"
  /\ Identity.usernameToAuthEmail " !? " = "".
Proof. split; reflexivity. Qed.

Example isAdminIdentity_run :
  Identity.isAdminIdentity None " Ad min" = true
  /\ Identity.isAdminIdentity (Some NotifySample.admin_account) "" = true
  /\ Identity.isAdminIdentity (Some NotifySample.bob_account) "bob" = false.
Proof. repeat split; vm_compute; reflexivity. Qed.

(** A user who is not admin ticks an item: the update carries [checked]
    and the id of the user, nothing else. *)
Example upsertItem_toggle_run :
  upsertItem Sample.upsert_ok (Sample.page false) Sample.toggle
  = (setToast "Saved" (Sample.page false),
     [ AuthGetUser;
       UpdateInventoryItem
         (<["updated_by" := JStr "u-ann"]> (<["checked" := JBool true]> ∅))
         (JStr "i1");
       LoadInventoryFromDb ]).
Proof. vm_compute. reflexivity. Qed.

(** An admin takes the gloves from 3 to 2, the minimum: the update, the
    session, the notification, the reload. *)
Example adjustConsumable_crossing_run :
  (adjustConsumable Sample.adjust_ok (Sample.page true) "c1" (-1)).2
  = [ UpdateConsumable
        {| on_hand := 2; updated_at := 1000; updated_by_name := "Ann";
           updated_by_username := "ann" |} "c1";
      AuthGetSession;
      InvokeNotifyLowStock NotifySample.gloves_low "token";
      LoadConsumablesFromDb ].
Proof. vm_compute. reflexivity. Qed.

Example addItem_success_run :
  List.map Item.id (items (addItem Sample.add_env None (Sample.page true)).1)
  = ["i2"; "i1"]
  /\ List.map Item.qty (items (addItem Sample.add_env None (Sample.page true)).1)
     = [2; 1].
Proof. split; vm_compute; reflexivity. Qed.

Example serve_sent_run :
  Notify.response_of
    (Notify.serve NotifySample.secrets NotifySample.env (NotifySample.db [])
       (NotifySample.post NotifySample.gloves_low))
  = Notify.json 200
      (Notify.SuccessJson "Low stock notification sent to 2 admin(s)"
         (Some ["boss@corp.example"; "bob@mail.example"])).
Proof. vm_compute. reflexivity. Qed.

End Runs.

(** ** Properties of the identity functions *)

Section IdentityFacts.
Import JS Identity.

(** Replacing the runs of a class by nothing keeps the other characters. *)
Lemma replace_runs_from_empty (cls : ascii -> bool) (b : bool) (s : string) :
  replace_runs_from cls "" b s = keep_chars (fun c => negb (cls c)) s.
Proof.
  revert b. induction s as [|c r IH]; intros b; simpl; [reflexivity|].
  destruct (cls c); simpl.
  - destruct b; simpl; apply IH.
  - f_equal. apply IH.
Qed.

Lemma replace_each_empty (cls : ascii -> bool) (s : string) :
  replace_each cls "" s = keep_chars (fun c => negb (cls c)) s.
Proof.
  induction s as [|c r IH]; simpl; [reflexivity|].
  destruct (cls c); simpl; [apply IH | f_equal; apply IH].
Qed.

Lemma keep_chars_ext (f g : ascii -> bool) (s : string) :
  (forall c, f c = g c) -> keep_chars f s = keep_chars g s.
Proof.
  intros Hfg. induction s as [|c r IH]; simpl; [reflexivity|].
  rewrite Hfg, IH. reflexivity.
Qed.

Lemma to_String_or_empty (s : string) :
  to_String (or_else (JStr s) (JStr "")) = s.
Proof.
  unfold or_else; simpl. case_bool_decide; simpl; congruence.
Qed.

Lemma normalizeUsername_string (raw : string) :
  normalizeUsername (JStr raw)
  = keep_chars (fun c => negb (is_space c)) (toLowerCase (trim raw)).
Proof.
  unfold normalizeUsername, replace_runs.
  rewrite replace_runs_from_empty, to_String_or_empty. reflexivity.
Qed.

(** C7: for every raw username string, [usernameToAuthEmail] returns the
    local part followed by ["@vibe-user.example.com"], the local part
    being the input trimmed, lowercased, with all white space removed and
    every character outside [[a-z0-9._-]] deleted; it returns the empty
    string when the local part is empty. *)
Theorem usernameToAuthEmail_spec (usernameRaw : string) :
  usernameToAuthEmail usernameRaw
  = if bool_decide (spec_localPart usernameRaw = "") then ""
    else spec_localPart usernameRaw +:+ "@vibe-user.example.com".
Proof.
  unfold usernameToAuthEmail, spec_localPart.
  rewrite normalizeUsername_string, replace_each_empty.
  rewrite (keep_chars_ext _ is_local_char)
    by (intros c; apply negb_involutive).
  reflexivity.
Qed.

(** C8: [isAdminIdentity] holds exactly when the lowercased metadata role
    is ["admin"], or the normalized username (from the metadata, else the
    hint) is ["admin"], or the lowercased e-mail address is
    ["admin@vibe-user.example.com"]. *)
Theorem isAdminIdentity_iff (user : option User) (usernameHint : string) :
  isAdminIdentity user usernameHint = true
  <-> toLowerCase (to_String (or_else (metadata_of user role) (JStr "")))
      = "admin"
      \/ normalizeUsername
           (or_else (metadata_of user username) (JStr usernameHint))
         = "admin"
      \/ toLowerCase (to_String (or_else (email_of user) (JStr "")))
         = "admin@vibe-user.example.com".
Proof.
  unfold isAdminIdentity, ADMIN_USERNAMES, ADMIN_EMAILS.
  rewrite !orb_true_iff, !bool_decide_eq_true, !elem_of_singleton.
  tauto.
Qed.

End IdentityFacts.

(** ** Properties of the handlers of the page *)

Section ConsumableFacts.
Import JS Backend App.

Lemma number_or_zero_id (n : Z) : number_or_zero n = n.
Proof. unfold number_or_zero. destruct (Z.eqb_spec n 0); congruence. Qed.

Lemma str_or_empty (s : string) : str_or s "" = s.
Proof. unfold str_or. case_bool_decide; congruence. Qed.

(** The calls of a run on an existing consumable: the update comes first
    and [rest] holds no other write. *)
Lemma adjustConsumable_calls (env : AdjustEnv) (st : AppState) (id : string)
    (delta : Z) (current : Consumable.t) :
  List.find (fun c => bool_decide (Consumable.id c = id)) (consumables st)
  = Some current ->
  exists patch rest,
    (adjustConsumable env st id delta).2 = UpdateConsumable patch id :: rest
    /\ on_hand patch
       = Z.max 0 (Consumable.onHand current + delta)
    /\ omap consumable_write rest = [].
Proof.
  intros Hfind. unfold adjustConsumable. rewrite Hfind.
  rewrite !number_or_zero_id.
  destruct (adj_updateError env).
  { eexists _, _. simpl. split; [reflexivity|]. split; reflexivity. }
  destruct (_ && _ && isAdmin st).
  - destruct (_ || _); eexists _, _; simpl;
      (split; [reflexivity|]); split; reflexivity.
  - eexists _, _. simpl. split; [reflexivity|]. split; reflexivity.
Qed.

(** C9: the value [adjustConsumable] writes to [on_hand] for an existing
    consumable is [max(0, onHand + delta)], whatever the sign of [delta];
    it is never negative. *)
Theorem adjustConsumable_writes_clamped (env : AdjustEnv) (st : AppState)
    (id : string) (delta : Z) (current : Consumable.t) :
  List.find (fun c => bool_decide (Consumable.id c = id)) (consumables st)
  = Some current ->
  on_hand_writes (adjustConsumable env st id delta)
  = [ Z.max 0 (Consumable.onHand current + delta) ]
  /\ Forall (fun v => 0 <= v) (on_hand_writes (adjustConsumable env st id delta)).
Proof.
  intros Hfind.
  destruct (adjustConsumable_calls env st id delta current Hfind)
    as (patch & rest & Hcalls & Hval & Hrest).
  assert (Hw : on_hand_writes (adjustConsumable env st id delta)
               = [ Z.max 0 (Consumable.onHand current + delta) ]).
  { unfold on_hand_writes. rewrite Hcalls.
    change (omap consumable_write (UpdateConsumable patch id :: rest))
      with (on_hand patch :: omap consumable_write rest).
    rewrite Hrest, Hval. reflexivity. }
  split; [exact Hw|]. rewrite Hw. constructor; [lia | constructor].
Qed.

Lemma adjustConsumable_writes_clamped_witness :
  on_hand_writes (adjustConsumable Sample.adjust_ok (Sample.page false) "c1" (-5))
  = [ Z.max 0 (3 + -5) ]
  /\ Forall (fun v => 0 <= v)
       (on_hand_writes
          (adjustConsumable Sample.adjust_ok (Sample.page false) "c1" (-5))).
Proof.
  apply (adjustConsumable_writes_clamped Sample.adjust_ok (Sample.page false)
           "c1" (-5) Sample.gloves).
  reflexivity.
Defined.

(** C1, as stated, fails: a user who is not admin takes the gloves from 3
    to 2 with a minimum of 2, a crossing, and the notification function is
    not invoked. *)
Lemma adjustConsumable_crossing_not_notified :
  List.find (fun c => bool_decide (Consumable.id c = "c1"))
    (consumables (Sample.page false)) = Some Sample.gloves
  /\ crossing Sample.gloves (-1)
  /\ notified (adjustConsumable Sample.adjust_ok (Sample.page false) "c1" (-1))
     = false.
Proof.
  split; [reflexivity|]. split; [|reflexivity].
  unfold crossing; simpl. lia.
Qed.

(** C1, amended: on an existing consumable the notification function is
    invoked exactly when the update succeeded, the user is admin, the
    session gave an access token, and the adjustment is a low-stock
    crossing. *)
Theorem adjustConsumable_notifies_iff (env : AdjustEnv) (st : AppState)
    (id : string) (delta : Z) (current : Consumable.t) :
  List.find (fun c => bool_decide (Consumable.id c = id)) (consumables st)
  = Some current ->
  notified (adjustConsumable env st id delta) = true
  <-> adj_updateError env = None
      /\ isAdmin st = true
      /\ adj_sessionError env = false
      /\ adj_accessToken env <> ""
      /\ crossing current delta.
Proof.
  intros Hfind. unfold notified, adjustConsumable, crossing.
  rewrite Hfind, !number_or_zero_id.
  destruct (adj_updateError env) as [m|]; simpl.
  { split; [discriminate | intros [? _]; discriminate]. }
  destruct (Z.ltb_spec (Consumable.minLevel current) (Consumable.onHand current));
    simpl.
  2: { split; [discriminate | intros (_ & _ & _ & _ & ? & _); lia]. }
  destruct (Z.leb_spec (Z.max 0 (Consumable.onHand current + delta))
              (Consumable.minLevel current)); simpl.
  2: { split; [discriminate | intros (_ & _ & _ & _ & _ & ?); lia]. }
  destruct (isAdmin st); simpl.
  2: { split; [discriminate | intros (_ & ? & _); discriminate]. }
  destruct (adj_sessionError env); simpl.
  { split; [discriminate | intros (_ & _ & ? & _); discriminate]. }
  case_bool_decide as Htok; simpl.
  { split; [discriminate | intros (_ & _ & _ & ? & _); contradiction]. }
  split; [intros _ | reflexivity]. repeat split; auto.
Qed.

Lemma adjustConsumable_notifies_iff_witness :
  notified (adjustConsumable Sample.adjust_ok (Sample.page true) "c1" (-1))
  = true.
Proof.
  apply (adjustConsumable_notifies_iff Sample.adjust_ok (Sample.page true)
           "c1" (-1) Sample.gloves).
  - reflexivity.
  - repeat split; try reflexivity; discriminate.
Defined.

(** C10: with no location chosen the list shown is empty, whatever the
    consumables are; with a location chosen it is the consumables at that
    location, in their order. *)
Theorem filteredConsumables_spec (consumables : list Consumable.t)
    (locationFilter : string) :
  (locationFilter = "" -> filteredConsumables locationFilter consumables = [])
  /\ (locationFilter <> "" ->
      filteredConsumables locationFilter consumables
      = List.filter
          (fun c => bool_decide (Consumable.location c = locationFilter))
          consumables
      /\ forall c,
           c ∈ filteredConsumables locationFilter consumables
           <-> c ∈ consumables /\ Consumable.location c = locationFilter).
Proof.
  unfold filteredConsumables. split; intros Hloc.
  - rewrite bool_decide_eq_true_2 by exact Hloc. reflexivity.
  - rewrite bool_decide_eq_false_2 by exact Hloc. simpl.
    assert (Heq : List.filter
              (fun c => bool_decide (str_or (Consumable.location c) "" = locationFilter))
              consumables
            = List.filter
                (fun c => bool_decide (Consumable.location c = locationFilter))
                consumables).
    { apply List.filter_ext. intros c. rewrite str_or_empty. reflexivity. }
    split; [exact Heq|]. intros c. rewrite Heq.
    rewrite !list_elem_of_In, List.filter_In, bool_decide_eq_true.
    reflexivity.
Qed.

Lemma filteredConsumables_spec_witness :
  filteredConsumables "" [Sample.gloves; Sample.tape] = []
  /\ filteredConsumables "Clancy" [Sample.gloves; Sample.tape]
     = [Sample.gloves].
Proof.
  destruct (filteredConsumables_spec [Sample.gloves; Sample.tape] "")
    as [Hempty _].
  destruct (filteredConsumables_spec [Sample.gloves; Sample.tape] "Clancy")
    as [_ Hsome].
  split; [apply Hempty; reflexivity|].
  destruct Hsome as [Heq _]; [discriminate|]. rewrite Heq. reflexivity.
Defined.

End ConsumableFacts.

Section InventoryFacts.
Import JS Backend App.

Lemma isCheckedOnlyUpdate_iff (partial : gmap string JsVal) :
  isCheckedOnlyUpdate partial = true <-> checked_only partial.
Proof.
  unfold isCheckedOnlyUpdate, checked_only.
  rewrite andb_true_iff, bool_decide_eq_true, List.forallb_forall.
  apply and_iff_compat_l. split.
  - intros Hkeys k [v Hv].
    specialize (Hkeys k).
    rewrite orb_true_iff, !bool_decide_eq_true in Hkeys.
    apply Hkeys, list_elem_of_In, list_elem_of_fmap.
    exists (k, v). split; [reflexivity|]. apply elem_of_map_to_list, Hv.
  - intros Hkeys k Hin.
    apply list_elem_of_In, list_elem_of_fmap in Hin as [[k' v] [-> Hin]].
    apply elem_of_map_to_list in Hin.
    rewrite orb_true_iff, !bool_decide_eq_true.
    apply Hkeys. exists v. exact Hin.
Qed.

(** C4: for a user who is not admin, [upsertItem] writes to the database
    only when the change holds [checked] and no field besides [id] and
    [checked]; for any other change it sets the toast
    ["Only admin can edit item details."] and returns with no call to the
    backend. *)
Theorem upsertItem_non_admin (env : UpsertEnv) (st : AppState)
    (partial : gmap string JsVal) :
  isAdmin st = false ->
  (existsb is_inventory_write (upsertItem env st partial).2 = true ->
   checked_only partial)
  /\ (~ checked_only partial ->
      toast (upsertItem env st partial).1 = "Only admin can edit item details."
      /\ (upsertItem env st partial).2 = []).
Proof.
  intros Hadmin. unfold upsertItem. rewrite Hadmin. simpl.
  destruct (isCheckedOnlyUpdate partial) eqn:Honly; simpl.
  - apply isCheckedOnlyUpdate_iff in Honly. split; [auto | contradiction].
  - split; [discriminate | intros _; split; reflexivity].
Qed.

Lemma upsertItem_non_admin_witness :
  toast (upsertItem Sample.upsert_ok (Sample.page false) Sample.rename).1
  = "Only admin can edit item details."
  /\ (upsertItem Sample.upsert_ok (Sample.page false) Sample.rename).2 = [].
Proof.
  apply (upsertItem_non_admin Sample.upsert_ok (Sample.page false) Sample.rename).
  - reflexivity.
  - intros [_ Hkeys]. destruct (Hkeys "name") as [Hk | Hk].
    + exists (JStr "Stand"). reflexivity.
    + discriminate.
    + discriminate.
Defined.

End InventoryFacts.

Section AddItemFacts.
Import JS Backend App.






End AddItemFacts.

(** ** Properties of the notification function *)

Section NotifyFacts.
Import JS Backend Notify.

Lemma duplicate_found_intro (env : ServeEnv) (db : Db) (p : LowStockPayload)
    (row : LogRow) :
  checkError env = false ->
  row ∈ notification_logs db ->
  entry_consumable_id (entry row) = consumable_id p ->
  status (entry row) = "sent" ->
  midnight env <= sent_at row ->
  duplicate_found env db p = true.
Proof.
  intros Hcheck Hin Hid Hstatus Htime.
  unfold duplicate_found, recentNotif. rewrite Hcheck.
  assert (Hkept : row ∈ List.filter
            (fun r =>
               bool_decide (entry_consumable_id (entry r) = consumable_id p)
               && (midnight env <=? sent_at r)
               && bool_decide (status (entry r) = "sent"))
            (notification_logs db)).
  { apply list_elem_of_In, List.filter_In. split; [apply list_elem_of_In, Hin|].
    rewrite !andb_true_iff, !bool_decide_eq_true, Z.leb_le. auto. }
  destruct (List.filter _ _) as [|r rest]; [|reflexivity].
  apply elem_of_nil in Hkept. contradiction.
Qed.

(** A duplicate found: nothing is sent and nothing is written. *)
Lemma serve_duplicate_quiet (secrets : Secrets) (env : ServeEnv) (db : Db)
    (req : Request) (payload : LowStockPayload) :
  body req = Json payload ->
  duplicate_found env db payload = true ->
  mails_of (serve secrets env db req) = []
  /\ db_of (serve secrets env db req) = db.
Proof.
  intros Hbody Hdup. unfold serve. rewrite Hbody, Hdup.
  split; repeat case_match; reflexivity.
Qed.



(** C2, as stated, fails. With a row of status sent for [c1] written
    today: when the query of the same-day check is answered with an error,
    the function goes on, calls the e-mail API and inserts a second row;
    and a request without a name is answered with status 400. *)
Lemma serve_duplicate_not_suppressed :
  NotifySample.sent_today
    ∈ notification_logs (NotifySample.db [NotifySample.sent_today])
  /\ entry_consumable_id (entry NotifySample.sent_today)
     = consumable_id NotifySample.gloves_low
  /\ status (entry NotifySample.sent_today) = "sent"
  /\ midnight NotifySample.env <= sent_at NotifySample.sent_today
  /\ List.map to
       (mails_of
          (serve NotifySample.secrets
             (NotifySample.with_check_error NotifySample.env)
             (NotifySample.db [NotifySample.sent_today])
             (NotifySample.post NotifySample.gloves_low)))
     = [ ["boss@corp.example"; "bob@mail.example"] ]
  /\ length
       (notification_logs
          (db_of
             (serve NotifySample.secrets
                (NotifySample.with_check_error NotifySample.env)
                (NotifySample.db [NotifySample.sent_today])
                (NotifySample.post NotifySample.gloves_low))))
     = 2%nat
  /\ response_of
       (serve NotifySample.secrets NotifySample.env
          (NotifySample.db [NotifySample.sent_today])
          (NotifySample.post NotifySample.unnamed_low))
     = json 400 (ErrorJson "Missing required fields").
Proof.
  split; [apply list_elem_of_here|].
  split; [reflexivity|]. split; [reflexivity|].
  split; [vm_compute; discriminate|].
  split; [vm_compute; reflexivity|].
  split; vm_compute; reflexivity.
Qed.

(** C2, amended: when the query of the same-day check succeeds and the
    log holds a row of status sent for the consumable with [sent_at] at or
    after the start of the day, the function calls no e-mail API and
    inserts no row; and a POST request with the API key configured and
    both required fields present is answered with the success message
    ["Notification already sent today for this item"]. *)
Theorem serve_same_day_duplicate (secrets : Secrets) (env : ServeEnv)
    (db : Db) (req : Request) (payload : LowStockPayload) (row : LogRow) :
  body req = Json payload ->
  checkError env = false ->
  row ∈ notification_logs db ->
  entry_consumable_id (entry row) = consumable_id payload ->
  status (entry row) = "sent" ->
  midnight env <= sent_at row ->
  mails_of (serve secrets env db req) = []
  /\ db_of (serve secrets env db req) = db
  /\ (method req = "POST" -> brevoKey secrets <> "" ->
      consumable_id payload <> "" -> Backend.name payload <> "" ->
      response_of (serve secrets env db req)
      = json 200
          (SuccessJson "Notification already sent today for this item" None)).
Proof.
  intros Hbody Hcheck Hin Hid Hstatus Htime.
  pose proof (duplicate_found_intro env db payload row
                Hcheck Hin Hid Hstatus Htime) as Hdup.
  destruct (serve_duplicate_quiet secrets env db req payload Hbody Hdup)
    as [Hmails Hdb].
  split; [exact Hmails|]. split; [exact Hdb|].
  intros Hpost Hkey Hcid Hname.
  unfold serve, response_of. rewrite Hbody, Hdup, Hpost.
  rewrite (bool_decide_eq_false_2 ("POST" = "OPTIONS")) by discriminate.
  rewrite (bool_decide_eq_true_2 ("POST" = "POST")) by reflexivity.
  rewrite !bool_decide_eq_false_2 by assumption.
  reflexivity.
Qed.

Lemma serve_same_day_duplicate_witness :
  serve NotifySample.secrets NotifySample.env
    (NotifySample.db [NotifySample.sent_today])
    (NotifySample.post NotifySample.gloves_low)
  = (json 200
       (SuccessJson "Notification already sent today for this item" None),
     NotifySample.db [NotifySample.sent_today], []).
Proof.
  destruct (serve_same_day_duplicate NotifySample.secrets NotifySample.env
              (NotifySample.db [NotifySample.sent_today])
              (NotifySample.post NotifySample.gloves_low)
              NotifySample.gloves_low NotifySample.sent_today)
    as (Hmails & Hdb & Hresp).
  - reflexivity.
  - reflexivity.
  - apply list_elem_of_here.
  - reflexivity.
  - reflexivity.
  - unfold Z.le. vm_compute. discriminate.
  - specialize (Hresp eq_refl).
    unfold mails_of, db_of, response_of in *.
    destruct (serve _ _ _ _) as [[resp db'] mails]. simpl in *.
    rewrite Hmails, Hdb, Hresp; [reflexivity | discriminate ..].
Defined.

End NotifyFacts.

Section NotifyOutcomeFacts.
Import JS Backend Notify.




(** X12: every address the function hands to the e-mail API is the
    [real_email] of a profile, is not empty, holds an at sign and does not
    end in the synthetic domain. *)
Lemma serve_recipients_real (secrets : Secrets) (env : ServeEnv) (db : Db)
    (req : Request) (mail : Email) (address : string) :
  mail ∈ mails_of (serve secrets env db req) ->
  address ∈ to mail ->
  (exists u, u ∈ user_profiles db /\ real_email u = Some address)
  /\ address <> ""
  /\ includes "@" address = true
  /\ endsWith "@vibe-user.example.com" address = false.
Proof.
  intros Hmail Haddr.
  assert (Hto : to mail = realEmails (profiles_with_real_email db)).
  { revert Hmail. unfold serve, adminUsers, mails_of.
    fold (profiles_with_real_email db).
    repeat case_match; simpl; intros Hmail;
      try (apply elem_of_nil in Hmail; contradiction);
      apply list_elem_of_singleton in Hmail; subst mail; simpl; congruence. }
  rewrite Hto in Haddr. unfold realEmails, profiles_with_real_email in Haddr.
  apply list_elem_of_In, List.filter_In in Haddr as [Hin Hreal].
  apply List.in_map_iff in Hin as (u & Hu & Hin).
  apply List.filter_In in Hin as [Hin Hsome].
  apply bool_decide_eq_true in Hsome as [a Ha].
  rewrite Ha in Hu. simpl in Hu. subst a.
  unfold is_real_email in Hreal.
  rewrite !andb_true_iff, !negb_true_iff, bool_decide_eq_false in Hreal.
  destruct Hreal as [[Hne Hend] Hat].
  split; [exists u; split; [apply list_elem_of_In, Hin | exact Ha]|]. auto.
Qed.

(** C3 at the failing input: Bob is not an admin, his profile holds a
    real address, and the alert for the gloves goes to the admin and to
    Bob. *)
Theorem serve_mails_every_profile :
  is_admin_profile (NotifySample.db []) NotifySample.bob_profile = false
  /\ List.map to
       (mails_of
          (serve NotifySample.secrets NotifySample.env (NotifySample.db [])
             (NotifySample.post NotifySample.gloves_low)))
     = [ ["boss@corp.example"; "bob@mail.example"] ].
Proof.
  split; vm_compute; reflexivity.
Qed.

End NotifyOutcomeFacts.

(** ** Further properties: user names and synthetic addresses *)

Section UsernameFacts.
Import JS Identity Text.

Ltac all_ascii c :=
  destruct c as [[] [] [] [] [] [] [] []]; vm_compute; try reflexivity;
  try discriminate.

Lemma lower_char_idem (c : ascii) : lower_char (lower_char c) = lower_char c.
Proof. all_ascii c. Qed.

Lemma is_space_lower_char (c : ascii) : is_space (lower_char c) = is_space c.
Proof. all_ascii c. Qed.

Lemma local_char_plain (c : ascii) :
  is_local_char c = true ->
  is_space c = false /\ lower_char c = c /\ (code c =? 64)%nat = false.
Proof. all_ascii c; intros; repeat split; discriminate. Qed.

Lemma toLowerCase_idem (s : string) :
  toLowerCase (toLowerCase s) = toLowerCase s.
Proof.
  induction s as [|c r IH]; simpl; [reflexivity|].
  rewrite lower_char_idem, IH. reflexivity.
Qed.

Lemma toLowerCase_keep_not_space (s : string) :
  toLowerCase (keep_chars not_space s) = keep_chars not_space (toLowerCase s).
Proof.
  induction s as [|c r IH]; simpl; [reflexivity|].
  assert (Hc : not_space (lower_char c) = not_space c)
    by (unfold not_space; rewrite is_space_lower_char; reflexivity).
  rewrite Hc. destruct (not_space c); simpl; rewrite IH; reflexivity.
Qed.

Lemma all_chars_keep (p : ascii -> bool) (s : string) :
  all_chars p (keep_chars p s) = true.
Proof.
  induction s as [|c r IH]; simpl; [reflexivity|].
  destruct (p c) eqn:Hp; simpl; [rewrite Hp|]; exact IH.
Qed.

Lemma keep_chars_all (p : ascii -> bool) (s : string) :
  all_chars p s = true -> keep_chars p s = s.
Proof.
  induction s as [|c r IH]; simpl; [reflexivity|].
  intros [Hc Hr]%andb_true_iff. rewrite Hc, (IH Hr). reflexivity.
Qed.

Lemma all_chars_impl (p q : ascii -> bool) (s : string) :
  (forall c, p c = true -> q c = true) ->
  all_chars p s = true -> all_chars q s = true.
Proof.
  intros Hpq. induction s as [|c r IH]; simpl; [reflexivity|].
  intros [Hc Hr]%andb_true_iff. rewrite (Hpq c Hc), (IH Hr). reflexivity.
Qed.

Lemma trimStart_no_space (s : string) :
  all_chars not_space s = true -> trimStart s = s.
Proof.
  destruct s as [|c r]; simpl; [reflexivity|].
  unfold not_space at 1. intros [Hc _]%andb_true_iff.
  apply negb_true_iff in Hc. rewrite Hc. reflexivity.
Qed.

Lemma trimEnd_no_space (s : string) :
  all_chars not_space s = true -> trimEnd s = s.
Proof.
  induction s as [|c r IH]; simpl; [reflexivity|].
  unfold not_space at 1. intros [Hc Hr]%andb_true_iff.
  apply negb_true_iff in Hc. rewrite (IH Hr), Hc.
  destruct r; reflexivity.
Qed.

Lemma trim_no_space (s : string) :
  all_chars not_space s = true -> trim s = s.
Proof.
  intros H. unfold trim. rewrite (trimStart_no_space s H).
  apply trimEnd_no_space, H.
Qed.

Lemma normalizeUsername_any (u : JsVal) :
  normalizeUsername u
  = keep_chars not_space (toLowerCase (trim (to_String (or_else u (JStr ""))))).
Proof.
  unfold normalizeUsername, replace_runs.
  rewrite replace_runs_from_empty. reflexivity.
Qed.

(** X1: normalizing a user name twice is normalizing it once, whatever
    value is passed. *)
Theorem normalizeUsername_idempotent (u : JsVal) :
  normalizeUsername (JStr (normalizeUsername u)) = normalizeUsername u.
Proof.
  rewrite (normalizeUsername_any (JStr _)), to_String_or_empty.
  rewrite (normalizeUsername_any u).
  set (t := trim (to_String (or_else u (JStr "")))).
  rewrite (trim_no_space (keep_chars not_space (toLowerCase t)))
    by apply all_chars_keep.
  rewrite toLowerCase_keep_not_space, toLowerCase_idem.
  apply keep_chars_all, all_chars_keep.
Qed.

Lemma usernameToAuthEmail_local (usernameRaw : string) :
  usernameToAuthEmail usernameRaw
  = let localPart :=
      keep_chars is_local_char (normalizeUsername (JStr usernameRaw)) in
    if bool_decide (localPart = "") then ""
    else localPart +:+ "@vibe-user.example.com".
Proof.
  unfold usernameToAuthEmail. rewrite replace_each_empty.
  rewrite (keep_chars_ext _ is_local_char)
    by (intros c; apply negb_involutive).
  reflexivity.
Qed.

Lemma prefix_app (a b : string) : String.prefix a (a +:+ b) = true.
Proof.
  induction a as [|c a IH]; simpl; [destruct b; reflexivity|].
  destruct (ascii_dec c c); [exact IH | contradiction].
Qed.

Lemma append_assoc (a b c : string) : (a +:+ b) +:+ c = a +:+ (b +:+ c).
Proof.
  induction a as [|x a IH]; [reflexivity|].
  change (String x ((a +:+ b) +:+ c) = String x (a +:+ (b +:+ c))).
  f_equal. exact IH.
Qed.

Lemma rev_app_acc (s acc : string) :
  String.rev_app s acc = String.rev_app s "" +:+ acc.
Proof.
  revert acc. induction s as [|c s IH]; intros acc; simpl; [reflexivity|].
  rewrite (IH (String c acc)), (IH (String c "")), append_assoc. reflexivity.
Qed.

Lemma rev_append (a b : string) :
  String.rev (a +:+ b) = String.rev b +:+ String.rev a.
Proof.
  unfold String.rev. generalize "" at 1 3 as acc.
  induction a as [|c a IH]; intros acc; simpl.
  - apply rev_app_acc.
  - apply IH.
Qed.

(** [(s + suffix).endsWith(suffix)] *)
Lemma endsWith_append (s suffix : string) :
  endsWith suffix (s +:+ suffix) = true.
Proof. unfold endsWith. rewrite rev_append. apply prefix_app. Qed.

(** X2: an address made by [usernameToAuthEmail] is never taken for a
    real address by the filter of the notification function. *)
Theorem auth_email_not_real (usernameRaw : string) :
  Notify.is_real_email (usernameToAuthEmail usernameRaw) = false.
Proof.
  rewrite usernameToAuthEmail_local. cbv zeta.
  case_bool_decide as Hempty; [reflexivity|].
  unfold Notify.is_real_email. rewrite endsWith_append.
  rewrite andb_false_r. reflexivity.
Qed.

Lemma before_at_append (s t : string) :
  all_chars is_local_char s = true ->
  before_at (s +:+ String "@" t) = s.
Proof.
  induction s as [|c s IH]; simpl; [reflexivity|].
  intros [Hc Hs]%andb_true_iff.
  destruct (local_char_plain c Hc) as (_ & _ & Hat).
  rewrite Hat, (IH Hs). reflexivity.
Qed.

(** X3: the part before the at sign of the address made for a user name
    is the local part the address was made from; the client reads the
    user name back this way when the metadata holds none. *)
Theorem auth_email_local_part (usernameRaw : string) :
  before_at (usernameToAuthEmail usernameRaw)
  = keep_chars is_local_char (normalizeUsername (JStr usernameRaw)).
Proof.
  rewrite usernameToAuthEmail_local. cbv zeta.
  case_bool_decide as Hempty; [rewrite Hempty; reflexivity|].
  apply (before_at_append _ "vibe-user.example.com"), all_chars_keep.
Qed.

(** X4: a user name that is not empty and holds only characters of
    [[a-z0-9._-]] is kept as it is: its address is the name followed by
    the synthetic domain. *)
Theorem usernameToAuthEmail_canonical (username : string) :
  username <> "" ->
  all_chars is_local_char username = true ->
  usernameToAuthEmail username = username +:+ "@vibe-user.example.com".
Proof.
  intros Hne Hlocal.
  assert (Hns : all_chars not_space username = true).
  { apply (all_chars_impl is_local_char); [|exact Hlocal].
    intros c Hc. unfold not_space.
    destruct (local_char_plain c Hc) as (-> & _). reflexivity. }
  assert (Hlow : toLowerCase username = username).
  { clear Hne Hns. induction username as [|c r IH]; simpl; [reflexivity|].
    simpl in Hlocal. apply andb_true_iff in Hlocal as [Hc Hr].
    destruct (local_char_plain c Hc) as (_ & -> & _).
    rewrite (IH Hr). reflexivity. }
  rewrite usernameToAuthEmail_local, normalizeUsername_any, to_String_or_empty.
  rewrite (trim_no_space _ Hns), Hlow, (keep_chars_all _ _ Hns).
  rewrite (keep_chars_all _ _ Hlocal). cbv zeta.
  rewrite bool_decide_eq_false_2 by exact Hne. reflexivity.
Qed.

Lemma usernameToAuthEmail_canonical_witness :
  usernameToAuthEmail "john.doe_9" = "john.doe_9@vibe-user.example.com".
Proof.
  apply (usernameToAuthEmail_canonical "john.doe_9");
    [discriminate | reflexivity].
Defined.

End UsernameFacts.

(** ** Further properties: the text of the alert *)

Section EscapeFacts.
Import JS Notify Text.

Lemma all_chars_append (p : ascii -> bool) (a b : string) :
  all_chars p (a +:+ b) = all_chars p a && all_chars p b.
Proof.
  induction a as [|c a IH]; [reflexivity|].
  change (p c && all_chars p (a +:+ b) = p c && all_chars p a && all_chars p b).
  rewrite IH, andb_assoc. reflexivity.
Qed.

(** One pass of [escapeHtml] removes its character and keeps what the
    passes before it achieved, the entity being free of both. *)
Lemma replace_each_removes (n : nat) (q : ascii -> bool) (sub s : string) :
  all_chars (fun c => q c && negb (is_char n c)) sub = true ->
  all_chars q s = true ->
  all_chars (fun c => q c && negb (is_char n c))
    (replace_each (is_char n) sub s) = true.
Proof.
  intros Hsub. induction s as [|c r IH]; simpl; [reflexivity|].
  intros [Hc Hr]%andb_true_iff.
  destruct (is_char n c) eqn:Hn.
  - rewrite all_chars_append, Hsub. exact (IH Hr).
  - simpl. rewrite Hc, Hn. exact (IH Hr).
Qed.

Lemma all_chars_true (s : string) : all_chars (fun _ => true) s = true.
Proof. induction s as [|c r IH]; simpl; [reflexivity | exact IH]. Qed.

(** X5: the text [escapeHtml] returns holds no less-than sign, no
    greater-than sign and no quote, whatever the input. *)
Theorem escapeHtml_no_markup (text : string) :
  all_chars (fun c => negb (is_markup c)) (escapeHtml text) = true.
Proof.
  unfold escapeHtml.
  pose proof (all_chars_true (replace_each (is_char 38) "&amp;" text)) as H0.
  pose proof (fun Hs => replace_each_removes 60 _ "&lt;" _ Hs H0) as H1;
    specialize (H1 eq_refl).
  pose proof (fun Hs => replace_each_removes 62 _ "&gt;" _ Hs H1) as H2;
    specialize (H2 eq_refl).
  pose proof (fun Hs => replace_each_removes 34 _ "&quot;" _ Hs H2) as H3;
    specialize (H3 eq_refl).
  pose proof (fun Hs => replace_each_removes 39 _ "&#039;" _ Hs H3) as H4;
    specialize (H4 eq_refl).
  revert H4. apply all_chars_impl. intros c. unfold is_markup, is_char.
  destruct (code c =? 60)%nat, (code c =? 62)%nat, (code c =? 34)%nat,
    (code c =? 39)%nat; simpl; congruence.
Qed.

Lemma replace_each_absent (cls : ascii -> bool) (sub s : string) :
  all_chars (fun c => negb (cls c)) s = true -> replace_each cls sub s = s.
Proof.
  induction s as [|c r IH]; simpl; [reflexivity|].
  intros [Hc Hr]%andb_true_iff. apply negb_true_iff in Hc.
  rewrite Hc, (IH Hr). reflexivity.
Qed.

(** A text without ampersand, less-than sign, greater-than sign and
    quotes passes through [escapeHtml] unchanged. *)
Lemma escapeHtml_plain (text : string) :
  all_chars (fun c => negb (is_escaped c)) text = true ->
  escapeHtml text = text.
Proof.
  intros Hplain. unfold escapeHtml.
  assert (Hone : forall n,
    (forall c, is_escaped c = false -> is_char n c = false) ->
    all_chars (fun c => negb (is_char n c)) text = true).
  { intros n Hn. revert Hplain. apply all_chars_impl. intros c Hc.
    apply negb_true_iff in Hc. rewrite (Hn c Hc). reflexivity. }
  assert (Hcls : forall c, is_escaped c = false ->
    is_char 38 c = false /\ is_char 60 c = false /\ is_char 62 c = false
    /\ is_char 34 c = false /\ is_char 39 c = false).
  { intros c. unfold is_escaped, is_markup, is_char.
    destruct (code c =? 38)%nat, (code c =? 60)%nat, (code c =? 62)%nat,
      (code c =? 34)%nat, (code c =? 39)%nat; simpl; intros; try discriminate;
      repeat split; reflexivity. }
  rewrite (replace_each_absent (is_char 38)) by (apply Hone; intros c Hc; apply Hcls, Hc).
  rewrite (replace_each_absent (is_char 60)) by (apply Hone; intros c Hc; apply Hcls, Hc).
  rewrite (replace_each_absent (is_char 62)) by (apply Hone; intros c Hc; apply Hcls, Hc).
  rewrite (replace_each_absent (is_char 34)) by (apply Hone; intros c Hc; apply Hcls, Hc).
  apply replace_each_absent, Hone. intros c Hc. apply Hcls, Hc.
Qed.

End EscapeFacts.

(** ** Further properties: what a run of the notification function does *)

Section ServeFacts.
Import JS Backend Notify.

(** X7: a run only appends to [notification_logs], one row at most,
    stamped with the time of the run; it leaves [user_profiles] and the
    accounts as they were. *)
Theorem serve_appends_at_most_one_row (secrets : Secrets) (env : ServeEnv)
    (db : Db) (req : Request) :
  (db_of (serve secrets env db req) = db
   \/ exists e, db_of (serve secrets env db req) = insert_log (now env) e db)
  /\ (exists added,
        notification_logs (db_of (serve secrets env db req))
        = (notification_logs db ++ added)%list
        /\ (length added <= 1)%nat
        /\ Forall (fun r => sent_at r = now env) added)
  /\ user_profiles (db_of (serve secrets env db req)) = user_profiles db
  /\ auth_users (db_of (serve secrets env db req)) = auth_users db.
Proof.
  assert (H : db_of (serve secrets env db req) = db
              \/ exists e, db_of (serve secrets env db req)
                           = insert_log (now env) e db).
  { unfold serve, db_of. repeat case_match; simpl; eauto. }
  split; [exact H|].
  destruct H as [-> | [e ->]].
  - split; [|split; reflexivity].
    exists []. rewrite app_nil_r. repeat split; [simpl; lia | constructor].
  - split; [|split; reflexivity].
    eexists. split; [reflexivity|]. split; [simpl; lia|].
    repeat constructor.
Qed.

(** X8: a run calls the e-mail API once at most, never without the API
    key and never with an empty list of recipients. *)
Theorem serve_mails_at_most_one (secrets : Secrets) (env : ServeEnv)
    (db : Db) (req : Request) :
  mails_of (serve secrets env db req) = []
  \/ exists mail,
       mails_of (serve secrets env db req) = [mail]
       /\ to mail <> []
       /\ api_key mail = brevoKey secrets
       /\ brevoKey secrets <> ""
       /\ method req = "POST".
Proof.
  unfold serve, mails_of.
  repeat case_match; simpl; try (left; reflexivity);
    right; eexists; (split; [reflexivity|]); simpl;
    repeat split; try discriminate; try reflexivity;
    repeat match goal with
    | H : bool_decide _ = false |- _ => apply bool_decide_eq_false in H
    | H : negb (bool_decide _) = false |- _ =>
        apply negb_false_iff, bool_decide_eq_true in H
    end; assumption.
Qed.

(** X9: a row of status sent is written only by a run that called the
    e-mail API for the listed recipients and got a success status, and
    that run answers 200 with those recipients. *)
Theorem serve_sent_row_means_sent (secrets : Secrets) (env : ServeEnv)
    (db : Db) (req : Request) (e : LogEntry) :
  db_of (serve secrets env db req) = insert_log (now env) e db ->
  status e = "sent" ->
  exists mail st message,
    mails_of (serve secrets env db req) = [mail]
    /\ to mail = sent_to_emails e
    /\ brevo env = FetchResponse st /\ ok st = true
    /\ response_of (serve secrets env db req)
       = json 200 (SuccessJson message (Some (sent_to_emails e))).
Proof.
  assert (Hinj : forall e1 e2, insert_log (now env) e1 db = insert_log (now env) e2 db
                               -> e1 = e2).
  { intros e1 e2 Heq. unfold insert_log in Heq. injection Heq as Heq.
    apply app_inv_head in Heq. injection Heq as Heq. exact Heq. }
  assert (Hne : forall e1, db <> insert_log (now env) e1 db).
  { intros e1 Heq. apply (f_equal (fun d => length (notification_logs d))) in Heq.
    simpl in Heq. rewrite length_app in Heq. simpl in Heq. lia. }
  unfold serve, db_of, mails_of, response_of.
  repeat case_match; simpl; intros Hdb Hst;
    try (exfalso; exact (Hne _ Hdb));
    apply Hinj in Hdb; subst e; simpl in *; try discriminate.
  eexists _, _, _. repeat split; try reflexivity.
  match goal with H : negb (ok _) = false |- _ => apply negb_false_iff in H; exact H end.
Qed.

Lemma serve_sent_row_means_sent_witness :
  exists mail st message,
    mails_of
      (serve NotifySample.secrets NotifySample.env (NotifySample.db [])
         (NotifySample.post NotifySample.gloves_low)) = [mail]
    /\ to mail = ["boss@corp.example"; "bob@mail.example"]
    /\ brevo NotifySample.env = FetchResponse st /\ ok st = true
    /\ response_of
         (serve NotifySample.secrets NotifySample.env (NotifySample.db [])
            (NotifySample.post NotifySample.gloves_low))
       = json 200
           (SuccessJson message
              (Some ["boss@corp.example"; "bob@mail.example"])).
Proof.
  apply (serve_sent_row_means_sent NotifySample.secrets NotifySample.env
           (NotifySample.db []) (NotifySample.post NotifySample.gloves_low)
           (logEntry NotifySample.gloves_low "sent"
              ["boss@corp.example"; "bob@mail.example"] None));
    reflexivity.
Defined.

(** X10: a request that is not a POST, or comes while the API key is not
    configured, or whose body is not JSON, or that lacks the id or the
    name of the consumable, sends nothing and writes nothing; it is
    answered ok only when it is an OPTIONS preflight, else 405, 500 or
    400. *)
Theorem serve_rejects_without_effect (secrets : Secrets) (env : ServeEnv)
    (db : Db) (req : Request) :
  method req <> "POST"
  \/ brevoKey secrets = ""
  \/ (exists message, body req = NotJson message)
  \/ (exists payload, body req = Json payload
        /\ (consumable_id payload = "" \/ Backend.name payload = "")) ->
  mails_of (serve secrets env db req) = []
  /\ db_of (serve secrets env db req) = db
  /\ ((method req = "OPTIONS"
       /\ response_of (serve secrets env db req) = json 200 (Text "ok"))
      \/ (method req <> "OPTIONS"
          /\ (http_status_code (response_of (serve secrets env db req)) = 405
              \/ http_status_code (response_of (serve secrets env db req)) = 500
              \/ http_status_code (response_of (serve secrets env db req)) = 400))).
Proof.
  intros Hbad. unfold serve, mails_of, db_of, response_of.
  case_bool_decide as Hopt; simpl.
  { repeat split. left. split; [assumption | reflexivity]. }
  case_bool_decide as Hpost; simpl.
  2: { repeat split. right. split; [assumption|]. left. reflexivity. }
  case_bool_decide as Hkey; simpl.
  { repeat split. right. split; [assumption|]. right. left. reflexivity. }
  destruct Hbad as [Hm | [Hk | [[message Hb] | (payload & Hb & Hfields)]]];
    try contradiction; rewrite Hb.
  { repeat split. right. split; [assumption|]. right. left. reflexivity. }
  assert (Hmissing : bool_decide (consumable_id payload = "")
                     || bool_decide (Backend.name payload = "") = true).
  { apply orb_true_iff. rewrite !bool_decide_eq_true. exact Hfields. }
  rewrite Hmissing. simpl.
  repeat split. right. split; [assumption|]. right. right. reflexivity.
Qed.

Lemma serve_rejects_without_effect_witness :
  mails_of
    (serve NotifySample.secrets NotifySample.env (NotifySample.db [])
       {| method := "GET"; body := Json NotifySample.gloves_low |}) = []
  /\ db_of
       (serve NotifySample.secrets NotifySample.env (NotifySample.db [])
          {| method := "GET"; body := Json NotifySample.gloves_low |})
     = NotifySample.db [].
Proof.
  destruct (serve_rejects_without_effect NotifySample.secrets NotifySample.env
              (NotifySample.db [])
              {| method := "GET"; body := Json NotifySample.gloves_low |})
    as (Hmails & Hdb & _).
  - left. discriminate.
  - split; assumption.
Defined.


Lemma serve_recipients_real_witness :
  (exists u, u ∈ user_profiles (NotifySample.db [])
             /\ real_email u = Some "bob@mail.example")
  /\ "bob@mail.example" <> ""
  /\ includes "@" "bob@mail.example" = true
  /\ endsWith "@vibe-user.example.com" "bob@mail.example" = false.
Proof.
  apply (serve_recipients_real NotifySample.secrets NotifySample.env
           (NotifySample.db []) (NotifySample.post NotifySample.gloves_low)
           {| api_key := "key";
              sender := ("alerts@inventory-vibe.local", "Inventory Vibe");
              to := ["boss@corp.example"; "bob@mail.example"];
              subject := "LOW STOCK ALERT: Gloves";
              html := htmlContent NotifySample.gloves_low |}).
  - vm_compute. apply list_elem_of_here.
  - simpl. apply list_elem_of_further, list_elem_of_here.
Defined.

End ServeFacts.

(** ** Further properties: adding and editing equipment *)

Section AddItemMore.
Import JS Backend App.



(** X14: a call of [addItem] leaves [isAdding] as it found it: every path
    that takes the lock releases it. *)
Theorem addItem_releases_lock (env : AddEnv) (insertError : option string)
    (st : AppState) :
  isAdding (addItem env insertError st).1 = isAdding st.
Proof.
  unfold addItem, addItem_submit, addItem_resume.
  destruct (isAdding st) eqn:Hadding;
    repeat case_match; simplify_eq; simpl; try rewrite Hadding; reflexivity.
Qed.

Lemma quantity_nonzero (v : JsVal) : quantity v <> 0.
Proof.
  unfold quantity, num_or.
  destruct (to_Number _) as [k|]; [|discriminate].
  destruct (Z.eqb_spec k 0); [discriminate | assumption].
Qed.

(** X16: the row [addItem] sends to the database and the item it stages
    in the list agree: same id (the generated one), same name, tag,
    location and quantity, both unchecked; the name is not empty and the
    quantity is not zero. *)
Theorem addItem_row_matches_item (env : AddEnv) (st st' : AppState)
    (calls : list Call) (itemId : string) :
  addItem_submit env st = AwaitInsert st' calls itemId ->
  exists item row,
    items st' = item :: items st
    /\ calls = [AuthGetUser; InsertInventoryItem row]
    /\ Item.id item = itemId /\ Backend.id row = itemId
    /\ item_name row = Item.name item
    /\ Backend.tag row = Item.tag item
    /\ Backend.location row = Item.location item
    /\ Backend.qty row = Item.qty item
    /\ Backend.checked row = false /\ Item.checked item = false
    /\ Item.name item <> ""
    /\ Item.qty item <> 0.
Proof.
  unfold addItem_submit. intros H.
  destruct (isAdmin st); simpl in H; [|discriminate].
  destruct (add_isForm env); simpl in H; [|discriminate].
  destruct (isAdding st); [discriminate|].
  destruct (add_getUser env) as [userId|]; [|discriminate].
  case_bool_decide as Hname; [discriminate|].
  injection H as <- <- <-.
  eexists _, _. repeat split; try reflexivity.
  - exact Hname.
  - apply quantity_nonzero.
Qed.

Lemma addItem_row_matches_item_witness :
  exists item row,
    Item.id item = "i2" /\ Backend.id row = "i2"
    /\ item_name row = Item.name item
    /\ Backend.qty row = Item.qty item
    /\ Item.name item <> ""
    /\ Item.qty item <> 0.
Proof.
  destruct (addItem_submit Sample.add_env (Sample.page true))
    as [st' calls | st' calls itemId] eqn:Hsub.
  - vm_compute in Hsub. discriminate.
  - pose proof Hsub as Hid. vm_compute in Hid. injection Hid as _ _ <-.
    destruct (addItem_row_matches_item _ _ _ _ _ Hsub)
      as (item & row & _ & _ & H1 & H2 & H3 & _ & _ & H4 & _ & _ & H5 & H6).
    exists item, row. repeat split; assumption.
Defined.

End AddItemMore.

Section UpsertMore.
Import JS Backend App.

(** X17: for every user, a change to an item whose id still starts with
    [tmp_], or made while no user is signed in, writes nothing to the
    database. *)
Theorem upsertItem_unsynced_or_signed_out (env : UpsertEnv) (st : AppState)
    (partial : gmap string JsVal) :
  is_tmp_id (prop partial "id") = true \/ upsert_getUser env = None ->
  existsb is_inventory_write (upsertItem env st partial).2 = false
  /\ toast (upsertItem env st partial).1 <> "Saved".
Proof.
  intros Hcase. unfold upsertItem.
  destruct (negb (isAdmin st) && negb (isCheckedOnlyUpdate partial));
    [split; [reflexivity | discriminate]|].
  destruct (is_tmp_id (prop partial "id")) eqn:Htmp;
    [split; [reflexivity | discriminate]|].
  destruct Hcase as [? | Huser]; [discriminate|]. rewrite Huser.
  split; [reflexivity | discriminate].
Qed.

Lemma upsertItem_unsynced_or_signed_out_witness :
  existsb is_inventory_write
    (upsertItem Sample.upsert_ok (Sample.page true)
       (<["id" := JStr "tmp_7"]> Sample.rename)).2 = false
  /\ toast
       (upsertItem Sample.upsert_ok (Sample.page true)
          (<["id" := JStr "tmp_7"]> Sample.rename)).1 <> "Saved".
Proof.
  apply (upsertItem_unsynced_or_signed_out Sample.upsert_ok (Sample.page true)
           (<["id" := JStr "tmp_7"]> Sample.rename)).
  left. vm_compute. reflexivity.
Defined.

Lemma lookup_copy_ne (k col j : string) (conv : JsVal -> JsVal)
    (partial patch : gmap string JsVal) :
  col <> j -> copy_if_present k col conv partial patch !! j = patch !! j.
Proof.
  intros Hne. unfold copy_if_present.
  destruct (partial !! k); [apply lookup_insert_ne, Hne | reflexivity].
Qed.

Lemma lookup_copy_eq (k col : string) (conv : JsVal -> JsVal)
    (partial patch : gmap string JsVal) :
  copy_if_present k col conv partial patch !! col
  = match partial !! k with
    | Some v => Some (conv v)
    | None => patch !! col
    end.
Proof.
  unfold copy_if_present.
  destruct (partial !! k); [apply lookup_insert_eq | reflexivity].
Qed.

(** The columns of [inventory_items] a patch can set. *)
Lemma upsert_patch_lookup (partial : gmap string JsVal) (userId j : string) :
  is_Some (upsert_patch partial userId !! j) ->
  j ∈ ["updated_by"; "checked"; "notes"; "qty"; "location"; "tag"; "item_name"].
Proof.
  unfold upsert_patch. intros Hsome.
  repeat match goal with
  | |- j ∈ ?c :: _ =>
      let Hne := fresh "Hne" in
      destruct (decide (c = j)) as [<- | Hne];
      [apply list_elem_of_here | apply list_elem_of_further];
      first [ rewrite lookup_insert_ne in Hsome by exact Hne
            | rewrite lookup_copy_ne in Hsome by exact Hne ]
  end.
  rewrite lookup_empty in Hsome. destruct Hsome as [? Hsome]. discriminate.
Qed.

(** X18: whenever [upsertItem] writes, the patch goes to the row named by
    the change, sets [updated_by] to the signed-in user, sets only columns
    among updated_by, checked, notes, qty, location, tag and item_name
    (never id or created_by), and a quantity in it is never zero. *)
Theorem upsertItem_patch_shape (env : UpsertEnv) (st : AppState)
    (partial patch : gmap string JsVal) (id : JsVal) :
  UpdateInventoryItem patch id ∈ (upsertItem env st partial).2 ->
  id = prop partial "id"
  /\ (exists userId,
        upsert_getUser env = Some userId
        /\ patch !! "updated_by" = Some (JStr userId))
  /\ (forall j, is_Some (patch !! j) ->
        j ∈ ["updated_by"; "checked"; "notes"; "qty"; "location"; "tag";
             "item_name"])
  /\ ((patch !! "qty" = None /\ partial !! "qty" = None)
      \/ (exists n, patch !! "qty" = Some (JNum n) /\ n <> 0)).
Proof.
  unfold upsertItem. intros Hin.
  assert (Hpatch : exists userId, upsert_getUser env = Some userId
                     /\ patch = upsert_patch partial userId
                     /\ id = prop partial "id").
  { repeat case_match; simpl in Hin;
      repeat match goal with
      | H : _ ∈ [] |- _ => apply elem_of_nil in H; contradiction
      | H : _ ∈ _ :: _ |- _ => apply elem_of_cons in H as [H | H]
      end; try discriminate; injection Hin as -> ->; eauto. }
  destruct Hpatch as (userId & Huser & -> & ->).
  split; [reflexivity|]. split.
  { exists userId. split; [exact Huser|]. unfold upsert_patch.
    apply lookup_insert_eq. }
  split; [apply upsert_patch_lookup|].
  unfold upsert_patch.
  rewrite lookup_insert_ne by discriminate.
  rewrite !lookup_copy_ne by discriminate.
  rewrite lookup_copy_eq.
  destruct (partial !! "qty") as [v|].
  - right. exists (quantity v). split; [reflexivity | apply quantity_nonzero].
  - left. rewrite !lookup_copy_ne by discriminate.
    split; [apply lookup_empty | reflexivity].
Qed.

Lemma upsertItem_patch_shape_witness :
  JStr "i1" = prop Sample.toggle "id"
  /\ (exists userId,
        upsert_getUser Sample.upsert_ok = Some userId
        /\ upsert_patch Sample.toggle "u-ann" !! "updated_by"
           = Some (JStr userId))
  /\ (forall j, is_Some (upsert_patch Sample.toggle "u-ann" !! j) ->
        j ∈ ["updated_by"; "checked"; "notes"; "qty"; "location"; "tag";
             "item_name"])
  /\ ((upsert_patch Sample.toggle "u-ann" !! "qty" = None
       /\ Sample.toggle !! "qty" = None)
      \/ (exists n, upsert_patch Sample.toggle "u-ann" !! "qty"
                    = Some (JNum n) /\ n <> 0)).
Proof.
  apply (upsertItem_patch_shape Sample.upsert_ok (Sample.page false)
           Sample.toggle (upsert_patch Sample.toggle "u-ann") (JStr "i1")).
  vm_compute. apply list_elem_of_further, list_elem_of_here.
Defined.

End UpsertMore.

(** ** Further properties: adjusting consumables *)

Section AdjustMore.
Import JS Backend App.

(** X19: adding stock, or adjusting by zero, never invokes the
    notification function, whoever the user is. *)
Theorem adjustConsumable_increase_silent (env : AdjustEnv) (st : AppState)
    (id : string) (delta : Z) :
  0 <= delta ->
  notified (adjustConsumable env st id delta) = false.
Proof.
  intros Hdelta. unfold notified, adjustConsumable.
  destruct (List.find _ _) as [current|]; [|reflexivity].
  rewrite !number_or_zero_id.
  destruct (adj_updateError env); [reflexivity|].
  destruct (Z.ltb_spec (Consumable.minLevel current) (Consumable.onHand current));
    [|reflexivity].
  destruct (Z.leb_spec (Z.max 0 (Consumable.onHand current + delta))
              (Consumable.minLevel current)); [lia | reflexivity].
Qed.

Lemma adjustConsumable_increase_silent_witness :
  notified (adjustConsumable Sample.adjust_ok (Sample.page true) "c1" 1)
  = false.
Proof.
  apply (adjustConsumable_increase_silent Sample.adjust_ok (Sample.page true)
           "c1" 1).
  discriminate.
Defined.

(** What a request to the notification function tells about the run
    that sent it. *)
Lemma adjustConsumable_invoke_inv (env : AdjustEnv) (st : AppState)
    (id : string) (delta : Z) (payload : LowStockPayload) (token : string) :
  InvokeNotifyLowStock payload token ∈ (adjustConsumable env st id delta).2 ->
  exists current,
    List.find (fun c => bool_decide (Consumable.id c = id)) (consumables st)
    = Some current
    /\ token = adj_accessToken env /\ token <> ""
    /\ Consumable.minLevel current < Consumable.onHand current
    /\ payload
       = {| consumable_id := id;
            Backend.name := str_or (Consumable.name current) "Unknown";
            payload_on_hand := Z.max 0 (Consumable.onHand current + delta);
            min_level := Consumable.minLevel current;
            payload_location := str_or (Consumable.location current) "Unknown";
            Backend.unit := str_or (Consumable.unit current) "pcs";
            payload_updated_by_name := actorName st |}
    /\ Z.max 0 (Consumable.onHand current + delta)
       <= Consumable.minLevel current.
Proof.
  unfold adjustConsumable. intros Hin.
  destruct (List.find _ _) as [current|];
    [|apply elem_of_nil in Hin; contradiction].
  exists current. split; [reflexivity|].
  rewrite !number_or_zero_id in Hin.
  assert (Hnone : forall l : list Call,
    Forall (fun c => is_notify c = false) l ->
    InvokeNotifyLowStock payload token ∈ l -> False).
  { intros l Hall Hl. rewrite Forall_forall in Hall.
    specialize (Hall _ Hl). discriminate. }
  destruct (adj_updateError env).
  { exfalso. revert Hin. apply Hnone. repeat constructor. }
  destruct (Z.ltb_spec (Consumable.minLevel current) (Consumable.onHand current))
    as [Hwas|]; simpl in Hin.
  2: { exfalso. revert Hin. apply Hnone. repeat constructor. }
  destruct (Z.leb_spec (Z.max 0 (Consumable.onHand current + delta))
              (Consumable.minLevel current)) as [Hnow|]; simpl in Hin.
  2: { exfalso. revert Hin. apply Hnone. repeat constructor. }
  destruct (isAdmin st); simpl in Hin.
  2: { exfalso. revert Hin. apply Hnone. repeat constructor. }
  destruct (adj_sessionError env); simpl in Hin.
  { exfalso. revert Hin. apply Hnone. repeat constructor. }
  case_bool_decide as Htoken; simpl in Hin.
  { exfalso. revert Hin. apply Hnone. repeat constructor. }
  apply elem_of_cons in Hin as [Hin | Hin]; [discriminate|].
  apply elem_of_cons in Hin as [Hin | Hin]; [discriminate|].
  apply elem_of_cons in Hin as [Hin | Hin].
  2: { apply list_elem_of_singleton in Hin. discriminate. }
  injection Hin as -> ->. repeat split; assumption.
Qed.

Lemma str_or_nonempty (a b : string) : b <> "" -> str_or a b <> "".
Proof. intros Hb. unfold str_or. case_bool_decide; assumption. Qed.

(** X20: every request [adjustConsumable] sends to the notification
    function names the adjusted consumable, carries a non-empty name,
    location, unit and author, an on-hand count between zero and the
    minimum level, and a non-empty access token. *)
Theorem adjustConsumable_payload_shape (env : AdjustEnv) (st : AppState)
    (id : string) (delta : Z) (payload : LowStockPayload) (token : string) :
  InvokeNotifyLowStock payload token ∈ (adjustConsumable env st id delta).2 ->
  consumable_id payload = id
  /\ Backend.name payload <> ""
  /\ payload_location payload <> ""
  /\ Backend.unit payload <> ""
  /\ payload_updated_by_name payload <> ""
  /\ 0 <= payload_on_hand payload <= min_level payload
  /\ token <> "".
Proof.
  intros Hin.
  destruct (adjustConsumable_invoke_inv _ _ _ _ _ _ Hin)
    as (current & _ & _ & Htoken & _ & -> & Hnow).
  simpl. split; [reflexivity|].
  split; [apply str_or_nonempty; discriminate|].
  split; [apply str_or_nonempty; discriminate|].
  split; [apply str_or_nonempty; discriminate|].
  split; [unfold actorName; apply str_or_nonempty, str_or_nonempty; discriminate|].
  split; [lia | exact Htoken].
Qed.

Lemma adjustConsumable_payload_shape_witness :
  consumable_id NotifySample.gloves_low = "c1"
  /\ Backend.name NotifySample.gloves_low <> ""
  /\ payload_location NotifySample.gloves_low <> ""
  /\ Backend.unit NotifySample.gloves_low <> ""
  /\ payload_updated_by_name NotifySample.gloves_low <> ""
  /\ 0 <= payload_on_hand NotifySample.gloves_low
     <= min_level NotifySample.gloves_low
  /\ "token" <> "".
Proof.
  apply (adjustConsumable_payload_shape Sample.adjust_ok (Sample.page true)
           "c1" (-1) NotifySample.gloves_low "token").
  vm_compute. do 2 apply list_elem_of_further. apply list_elem_of_here.
Defined.

(** X21: the client and the function fit: a request [adjustConsumable]
    sends for a consumable whose id is not empty is never answered by the
    function with the status 400 of a request that lacks required fields;
    with the key configured and an alert already sent today it is
    answered with the notice of the duplicate. *)
Theorem adjustConsumable_request_is_valid (env : AdjustEnv) (st : AppState)
    (id : string) (delta : Z) (payload : LowStockPayload) (token : string)
    (secrets : Notify.Secrets) (senv : Notify.ServeEnv) (db : Notify.Db) :
  InvokeNotifyLowStock payload token ∈ (adjustConsumable env st id delta).2 ->
  id <> "" ->
  Notify.response_of
    (Notify.serve secrets senv db
       {| Notify.method := "POST"; Notify.body := Notify.Json payload |})
  <> Notify.json 400 (Notify.ErrorJson "Missing required fields")
  /\ (Notify.brevoKey secrets <> "" ->
      Notify.duplicate_found senv db payload = true ->
      Notify.response_of
        (Notify.serve secrets senv db
           {| Notify.method := "POST"; Notify.body := Notify.Json payload |})
      = Notify.json 200
          (Notify.SuccessJson "Notification already sent today for this item"
             None)).
Proof.
  intros Hin Hid.
  destruct (adjustConsumable_invoke_inv _ _ _ _ _ _ Hin)
    as (current & _ & _ & _ & _ & Hpayload & _).
  assert (Hcid : consumable_id payload <> "") by (rewrite Hpayload; exact Hid).
  assert (Hname : Backend.name payload <> "")
    by (rewrite Hpayload; apply str_or_nonempty; discriminate).
  clear Hpayload Hin.
  unfold Notify.serve, Notify.response_of.
  change (Notify.method {| Notify.method := "POST";
                           Notify.body := Notify.Json payload |}) with "POST".
  change (Notify.body {| Notify.method := "POST";
                         Notify.body := Notify.Json payload |})
    with (Notify.Json payload).
  rewrite (bool_decide_eq_false_2 ("POST" = "OPTIONS")) by discriminate.
  rewrite (bool_decide_eq_true_2 ("POST" = "POST")) by reflexivity.
  rewrite (bool_decide_eq_false_2 (consumable_id payload = "")) by exact Hcid.
  rewrite (bool_decide_eq_false_2 (Backend.name payload = "")) by exact Hname.
  split.
  - repeat case_match; simpl; discriminate.
  - intros Hkey Hdup. rewrite (bool_decide_eq_false_2 _ Hkey), Hdup.
    reflexivity.
Qed.

Lemma adjustConsumable_request_is_valid_witness :
  Notify.response_of
    (Notify.serve NotifySample.secrets NotifySample.env
       (NotifySample.db [NotifySample.sent_today])
       {| Notify.method := "POST";
          Notify.body := Notify.Json NotifySample.gloves_low |})
  = Notify.json 200
      (Notify.SuccessJson "Notification already sent today for this item"
         None).
Proof.
  apply (adjustConsumable_request_is_valid Sample.adjust_ok (Sample.page true)
           "c1" (-1) NotifySample.gloves_low "token").
  - vm_compute. do 2 apply list_elem_of_further. apply list_elem_of_here.
  - discriminate.
  - discriminate.
  - vm_compute. reflexivity.
Defined.

End AdjustMore.

(** ** Further properties: the lists and counters of the page *)

Section ViewFacts.
Import JS App Views.

Variable localeCompare : string -> string -> Z.

Lemma insert_by_perm {A : Type} (cmp : A -> A -> Z) (x : A) (l : list A) :
  Permutation (insert_by cmp x l) (x :: l).
Proof.
  induction l as [|y r IH]; simpl; [reflexivity|].
  destruct (cmp x y <=? 0); [reflexivity|].
  rewrite IH. apply perm_swap.
Qed.

Lemma sort_by_perm {A : Type} (cmp : A -> A -> Z) (l : list A) :
  Permutation (sort_by cmp l) l.
Proof.
  induction l as [|x r IH]; simpl; [reflexivity|].
  rewrite insert_by_perm, IH. reflexivity.
Qed.

(** A stable insertion keeps a list in order when the comparison is
    total and transitive. *)
Lemma insert_by_sorted {A : Type} (cmp : A -> A -> Z) (x : A) (l : list A) :
  (forall a b, 0 < cmp a b -> cmp b a <= 0) ->
  (forall a b c, cmp a b <= 0 -> cmp b c <= 0 -> cmp a c <= 0) ->
  StronglySorted (fun a b => cmp a b <= 0) l ->
  StronglySorted (fun a b => cmp a b <= 0) (insert_by cmp x l).
Proof.
  intros Htotal Htrans. induction 1 as [|y r Hsorted IH Hall]; simpl.
  - repeat constructor.
  - destruct (Z.leb_spec (cmp x y) 0) as [Hle | Hgt].
    + constructor; [constructor; assumption|].
      constructor; [exact Hle|].
      eapply Forall_impl; [exact Hall|]. intros z Hz. simpl in Hz.
      eapply Htrans; eassumption.
    + constructor; [exact IH|].
      rewrite (insert_by_perm cmp x r). constructor; [|exact Hall].
      apply Htotal, Hgt.
Qed.

Lemma sort_by_sorted {A : Type} (cmp : A -> A -> Z) (l : list A) :
  (forall a b, 0 < cmp a b -> cmp b a <= 0) ->
  (forall a b c, cmp a b <= 0 -> cmp b c <= 0 -> cmp a c <= 0) ->
  StronglySorted (fun a b => cmp a b <= 0) (sort_by cmp l).
Proof.
  intros Htotal Htrans. induction l as [|x r IH]; simpl.
  - constructor.
  - apply insert_by_sorted; assumption.
Qed.

Lemma filter_filter_and {A : Type} (f g : A -> bool) (l : list A) :
  List.filter g (List.filter f l) = List.filter (fun x => f x && g x) l.
Proof.
  induction l as [|x r IH]; simpl; [reflexivity|].
  destruct (f x); simpl; [destruct (g x)|]; rewrite IH; reflexivity.
Qed.

(** The list before it is sorted. *)
Lemma filtered_perm (items : list Item.t) (query filter sort : string) :
  Permutation (filtered localeCompare items query filter sort)
    (List.filter
       (fun i => matches_query (toLowerCase (trim query)) i
                 && status_matches filter i)
       items).
Proof.
  unfold filtered, status_matches.
  repeat match goal with
  | |- context [sort_by ?cmp ?l] => rewrite (sort_by_perm cmp l)
  end.
  repeat case_bool_decide; simplify_eq;
    rewrite ?sort_by_perm, ?filter_filter_and; try reflexivity;
    (erewrite List.filter_ext; [reflexivity|]);
    intros i; simpl; rewrite ?andb_true_r; reflexivity.
Qed.

(** X22: the equipment list shows exactly the items that match the query
    and the status filter, each as often as it occurs in the state,
    whatever the sort order chosen. *)
Theorem filtered_shows_matching (items : list Item.t)
    (query filter sort : string) :
  (forall i,
     i ∈ filtered localeCompare items query filter sort
     <-> i ∈ items
         /\ matches_query (toLowerCase (trim query)) i = true
         /\ status_matches filter i = true)
  /\ Permutation (filtered localeCompare items query filter sort)
       (List.filter
          (fun i => matches_query (toLowerCase (trim query)) i
                    && status_matches filter i)
          items)
  /\ (length (filtered localeCompare items query filter sort)
      <= length items)%nat.
Proof.
  pose proof (filtered_perm items query filter sort) as Hperm.
  split; [|split; [exact Hperm|]].
  - intros i. rewrite Hperm, !list_elem_of_In, List.filter_In, andb_true_iff.
    reflexivity.
  - rewrite Hperm. apply List.filter_length_le.
Qed.

(** X23: under the order [recent] the equipment list runs from the most
    recently updated item to the least recently updated one. *)
Theorem filtered_recent_sorted (items : list Item.t) (query filter : string) :
  StronglySorted (fun a b => Item.updatedAt b <= Item.updatedAt a)
    (filtered localeCompare items query filter "recent").
Proof.
  unfold filtered.
  rewrite (bool_decide_eq_true_2 ("recent" = "recent")) by reflexivity.
  rewrite (bool_decide_eq_false_2 ("recent" = "name")) by discriminate.
  rewrite (bool_decide_eq_false_2 ("recent" = "location")) by discriminate.
  cbv zeta.
  match goal with
  | |- StronglySorted _ (sort_by by_recent_item ?l) =>
      pose proof (sort_by_sorted by_recent_item l) as Hsorted
  end.
  assert (Hcmp : forall a b : Item.t,
            by_recent_item a b = Item.updatedAt b - Item.updatedAt a).
  { intros a b. unfold by_recent_item. rewrite !number_or_zero_id.
    reflexivity. }
  match type of Hsorted with
  | ?P -> ?Q -> ?R =>
      assert (Hs : R);
      [apply Hsorted; intros; rewrite ?Hcmp in *; lia|]
  end.
  clear Hsorted. revert Hs.
  match goal with
  | |- StronglySorted _ ?l -> _ => generalize l
  end.
  intros l Hs. induction Hs as [|x r Hr IH Hall]; constructor.
  - exact IH.
  - eapply Forall_impl; [exact Hall|]. intros y Hy. simpl in Hy.
    rewrite Hcmp in Hy. lia.
Qed.

Lemma filter_length_split {A : Type} (f : A -> bool) (l : list A) :
  (length (List.filter f l) + length (List.filter (fun x => negb (f x)) l)
   = length l)%nat.
Proof.
  induction l as [|x r IH]; simpl; [reflexivity|].
  destruct (f x); simpl; lia.
Qed.

(** X24: the counters of the equipment page agree with its list: with
    no query, [checked] is the length of the list under the filter
    [checked], [missing] the length under [missing], [total] the length
    under [all]; the two parts add up to the total. *)
Theorem stats_agree_with_list (items : list Item.t) (sort : string) :
  checked (stats items)
  = Z.of_nat (length (filtered localeCompare items "" "checked" sort))
  /\ missing (stats items)
     = Z.of_nat (length (filtered localeCompare items "" "missing" sort))
  /\ total (stats items)
     = Z.of_nat (length (filtered localeCompare items "" "all" sort))
  /\ checked (stats items) + missing (stats items) = total (stats items).
Proof.
  assert (Hlen : forall status,
    length (filtered localeCompare items "" status sort)
    = length (List.filter (status_matches status) items)).
  { intros status. rewrite (filtered_perm items "" status sort).
    reflexivity. }
  rewrite !Hlen. unfold stats, status_matches; simpl.
  pose proof (filter_length_split Item.checked items) as Hsplit.
  assert (Hall : List.filter (fun _ : Item.t => true) items = items).
  { clear. induction items as [|x r IH]; simpl; [reflexivity|].
    rewrite IH. reflexivity. }
  rewrite Hall.
  repeat split; lia.
Qed.

(** X25: the search box offers eight hits at most and none for a blank
    entry; a user who is not admin is offered no equipment; every hit is
    a row of the state whose lowercased name includes the lowercased,
    trimmed entry. *)
Theorem globalSearchResults_spec (globalSearch : string)
    (items : list Item.t) (consumables : list Consumable.t) (isAdmin : bool) :
  (length (globalSearchResults globalSearch items consumables isAdmin) <= 8)%nat
  /\ (toLowerCase (trim globalSearch) = "" ->
      globalSearchResults globalSearch items consumables isAdmin = [])
  /\ (isAdmin = false ->
      Forall (fun r => page r = "consumables")
        (globalSearchResults globalSearch items consumables isAdmin))
  /\ Forall
       (fun r =>
          includes (toLowerCase (trim globalSearch)) (toLowerCase (name r))
          = true
          /\ ((page r = "equipment" /\ exists i, i ∈ items /\ Item.id i = id r)
              \/ (page r = "consumables"
                  /\ exists c, c ∈ consumables /\ Consumable.id c = id r)))
       (globalSearchResults globalSearch items consumables isAdmin).
Proof.
  unfold globalSearchResults.
  set (q := toLowerCase (trim globalSearch)).
  assert (Hhits : Forall
    (fun r =>
       includes q (toLowerCase (name r)) = true
       /\ ((page r = "equipment" /\ exists i, i ∈ items /\ Item.id i = id r)
           \/ (page r = "consumables"
               /\ exists c, c ∈ consumables /\ Consumable.id c = id r)))
    (item_hits q items ++ consumable_hits q consumables)).
  { apply Forall_app. split; apply Forall_forall; intros r Hr.
    - apply list_elem_of_In, List.in_map_iff in Hr as (i & <- & Hi).
      apply List.filter_In in Hi as [Hi Hq]. simpl.
      split; [exact Hq|]. left. split; [reflexivity|].
      exists i. split; [apply list_elem_of_In, Hi | reflexivity].
    - apply list_elem_of_In, List.in_map_iff in Hr as (c & <- & Hc).
      apply List.filter_In in Hc as [Hc Hq]. simpl.
      split; [exact Hq|]. right. split; [reflexivity|].
      exists c. split; [apply list_elem_of_In, Hc | reflexivity]. }
  split; [|split; [|split]].
  - case_bool_decide; simpl; [lia|]. rewrite length_take. lia.
  - intros Hq. rewrite bool_decide_eq_true_2 by exact Hq. reflexivity.
  - intros ->. case_bool_decide; [constructor|].
    apply Forall_take, Forall_forall. intros r Hr.
    apply list_elem_of_In, List.filter_In in Hr as [Hr Hpage].
    rewrite orb_false_r, negb_true_iff, bool_decide_eq_false in Hpage.
    rewrite Forall_forall in Hhits.
    destruct (Hhits r (proj2 (list_elem_of_In _ _) Hr)) as [_ [[Hp _] | [Hp _]]];
      [contradiction | exact Hp].
  - case_bool_decide; [constructor|].
    apply Forall_take, Forall_forall. intros r Hr.
    apply list_elem_of_In, List.filter_In in Hr as [Hr _].
    rewrite Forall_forall in Hhits. apply Hhits, list_elem_of_In, Hr.
Qed.

(** X26: the low-stock list of the overview holds the first five
    consumables at or below their minimum, so its length is the smaller of
    five and the low-stock counter beside it. *)
Theorem lowRows_agree_with_counter (consumables : list Consumable.t) :
  Forall (fun c => Consumable.onHand c <= Consumable.minLevel c)
    (lowRows consumables)
  /\ Z.of_nat (length (lowRows consumables))
     = Z.min 5 (low (consumableStats consumables))
  /\ low (consumableStats consumables) + healthy (consumableStats consumables)
     = cs_total (consumableStats consumables)
  /\ 0 <= healthy (consumableStats consumables).
Proof.
  unfold lowRows, consumableStats; simpl.
  split; [|split; [|split]].
  - apply Forall_take, Forall_forall. intros c Hc.
    apply list_elem_of_In, List.filter_In in Hc as [_ Hlow].
    unfold is_low in Hlow. rewrite !number_or_zero_id in Hlow. lia.
  - rewrite length_take. lia.
  - lia.
  - pose proof (List.filter_length_le is_low consumables). lia.
Qed.

End ViewFacts.

(** ** Further properties: bulk checks and the operations kept for admins *)

Section HandlerFacts.
Import JS Backend App Handlers.

(** X27: [setAllChecked(v)] never adds, drops or reorders an item and
    never touches a name, tag, location, quantity or note; when the bulk
    update went through every item of the list is marked [v], otherwise the
    list stays as it was. *)
Theorem setAllChecked_marks_all (env : BulkEnv) (st : AppState) (v : bool) :
  List.map
    (fun i => (Item.id i, Item.name i, Item.tag i, Item.location i,
               Item.qty i, Item.note i))
    (items (setAllChecked env st v).1)
  = List.map
      (fun i => (Item.id i, Item.name i, Item.tag i, Item.location i,
                 Item.qty i, Item.note i))
      (items st)
  /\ (bulk_applied env ->
      Forall (fun i => Item.checked i = v) (items (setAllChecked env st v).1)
      /\ toast (setAllChecked env st v).1
         = (if v then "All checked" else "Reset"))
  /\ (~ bulk_applied env -> items (setAllChecked env st v).1 = items st).
Proof.
  assert (Hkeep : forall f : nat -> Item.t -> Item.t,
    (forall k x,
      (Item.id (f k x), Item.name (f k x), Item.tag (f k x),
       Item.location (f k x), Item.qty (f k x), Item.note (f k x))
      = (Item.id x, Item.name x, Item.tag x, Item.location x, Item.qty x,
         Item.note x)) ->
    forall l,
    List.map (fun i => (Item.id i, Item.name i, Item.tag i, Item.location i,
                        Item.qty i, Item.note i)) (imap f l)
    = List.map (fun i => (Item.id i, Item.name i, Item.tag i, Item.location i,
                          Item.qty i, Item.note i)) l).
  { intros f Hf l. revert f Hf. induction l as [|x r IH]; intros f Hf;
      [reflexivity|].
    rewrite imap_cons. simpl. rewrite Hf. f_equal.
    apply IH. intros k y. apply Hf. }
  assert (Hmarked : forall (f : nat -> Item.t -> Item.t) l,
    (forall k x, Item.checked (f k x) = v) ->
    Forall (fun i => Item.checked i = v) (imap f l)).
  { intros f l. revert f. induction l as [|x r IH]; intros f Hf;
      [constructor|].
    rewrite imap_cons. constructor; [apply Hf|]. apply IH.
    intros k y. apply Hf. }
  unfold setAllChecked, bulk_applied.
  destruct (bulk_getUser env) as [userId|].
  2: { split; [reflexivity|]. split; [|reflexivity].
       intros ([? ?] & _). discriminate. }
  destruct (bulk_updateError env).
  { split; [reflexivity|]. split; [|reflexivity].
    intros (_ & ? & _). discriminate. }
  destruct (has_rows (bulk_count env) && none_changed (bulk_changedCount env)).
  { split; [reflexivity|]. split; [|reflexivity].
    intros (_ & _ & ?). discriminate. }
  simpl. split; [apply Hkeep; reflexivity|]. split.
  - intros _. split; [apply Hmarked; reflexivity | reflexivity].
  - intros Hnot. exfalso. apply Hnot. repeat split; eauto.
Qed.

(** X15: the operations kept for admins: for a user who is not admin,
    adding an item, deleting an item, deleting a consumable, adding a
    consumable and resolving feedback call nothing and leave the lists of
    the page as they are; adding a consumable returns false. *)
Theorem admin_only_operations (st : AppState) (addEnv : AddEnv)
    (insertError deleteItemError deleteConsumableError updateError
       : option string)
    (itemId consumableId feedbackId : string) (env : AddConsumableEnv)
    (resolved : bool) :
  isAdmin st = false ->
  ((addItem addEnv insertError st).2 = []
   /\ items (addItem addEnv insertError st).1 = items st)
  /\ (removeItem deleteItemError st itemId).2 = []
  /\ (removeConsumable deleteConsumableError st consumableId).2 = []
  /\ ((addConsumable env st).1.1 = false /\ (addConsumable env st).2 = [])
  /\ toggleFeedbackResolved updateError st feedbackId resolved = (st, []).
Proof.
  intros Hadmin.
  unfold addItem, addItem_submit, removeItem, removeConsumable, addConsumable,
    toggleFeedbackResolved.
  rewrite Hadmin. simpl. repeat split.
Qed.

Lemma admin_only_operations_witness :
  ((addItem Sample.add_env None (Sample.page false)).2 = []
   /\ items (addItem Sample.add_env None (Sample.page false)).1
      = [Sample.tripod])
  /\ (removeItem None (Sample.page false) "i1").2 = []
  /\ (removeConsumable None (Sample.page false) "c1").2 = []
  /\ ((addConsumable
         {| ac_form := <["name" := "Tape"]> ∅; ac_uuid := "c9";
            ac_insertError := None |} (Sample.page false)).1.1 = false
      /\ (addConsumable
            {| ac_form := <["name" := "Tape"]> ∅; ac_uuid := "c9";
               ac_insertError := None |} (Sample.page false)).2 = [])
  /\ toggleFeedbackResolved None (Sample.page false) "f1" true
     = (Sample.page false, []).
Proof.
  apply (admin_only_operations (Sample.page false) Sample.add_env None None
           None None "i1" "c1" "f1"
           {| ac_form := <["name" := "Tape"]> ∅; ac_uuid := "c9";
              ac_insertError := None |} true).
  reflexivity.
Defined.


End HandlerFacts.

(** ** Further properties: signing up and becoming a recipient *)

Section AuthFacts.
Import JS Identity Notify Auth Text.

(** X29: [onSignup] calls the auth service once at most, and only with
    the synthetic address made from the user name (not empty, ending in
    the synthetic domain), the normalized user name, a display name and a
    password that are not empty, and a real address that holds an at
    sign. *)
Theorem onSignup_call_shape (signUpError : option string)
    (nameRaw usernameRaw emailRaw password : string) :
  (length (onSignup signUpError nameRaw usernameRaw emailRaw password).2 <= 1)%nat
  /\ forall call,
       call ∈ (onSignup signUpError nameRaw usernameRaw emailRaw password).2 ->
       su_email call = usernameToAuthEmail usernameRaw
       /\ su_email call <> ""
       /\ endsWith "@vibe-user.example.com" (su_email call) = true
       /\ su_username call = normalizeUsername (JStr usernameRaw)
       /\ su_username call <> ""
       /\ su_full_name call <> ""
       /\ su_password call = password /\ password <> ""
       /\ su_real_email call = emailRaw
       /\ includes "@" emailRaw = true.
Proof.
  unfold onSignup.
  case_bool_decide as Hname; simpl;
    [split; [lia | intros c Hc; apply elem_of_nil in Hc; contradiction]|].
  case_bool_decide as Huser; simpl;
    [split; [lia | intros c Hc; apply elem_of_nil in Hc; contradiction]|].
  case_bool_decide as Hpw; simpl;
    [split; [lia | intros c Hc; apply elem_of_nil in Hc; contradiction]|].
  case_bool_decide as Hmail; simpl;
    [split; [lia | intros c Hc; apply elem_of_nil in Hc; contradiction]|].
  destruct (includes "@" emailRaw) eqn:Hat; simpl;
    [|split; [lia | intros c Hc; apply elem_of_nil in Hc; contradiction]].
  case_bool_decide as Hemail; simpl;
    [split; [lia | intros c Hc; apply elem_of_nil in Hc; contradiction]|].
  assert (Hends : endsWith "@vibe-user.example.com"
                    (usernameToAuthEmail usernameRaw) = true).
  { revert Hemail. rewrite usernameToAuthEmail_local. cbv zeta.
    case_bool_decide; [contradiction|]. intros _. apply endsWith_append. }
  split; [destruct signUpError; simpl; lia|].
  intros call Hcall.
  assert (call = {| su_email := usernameToAuthEmail usernameRaw;
                    su_password := password;
                    su_username := normalizeUsername (JStr usernameRaw);
                    su_full_name := normalizeDisplayName (JStr nameRaw);
                    su_real_email := emailRaw |}) as ->.
  { destruct signUpError; simpl in Hcall;
      apply list_elem_of_singleton in Hcall; exact Hcall. }
  simpl. repeat split; assumption.
Qed.

Lemma upsert_row_elem (row : UserProfile) (rows : list UserProfile) :
  row ∈ Auth.upsert_row row rows.
Proof.
  unfold Auth.upsert_row.
  destruct (existsb _ rows) eqn:Hex.
  - apply List.existsb_exists in Hex as (r & Hr & Hid).
    apply list_elem_of_In, List.in_map_iff. exists r.
    rewrite Hid. split; [reflexivity | exact Hr].
  - apply elem_of_app. right. apply list_elem_of_here.
Qed.

Lemma upsert_row_others (row r : UserProfile) (rows : list UserProfile) :
  r ∈ rows -> user_id r <> user_id row -> r ∈ Auth.upsert_row row rows.
Proof.
  intros Hr Hne. unfold Auth.upsert_row.
  destruct (existsb _ rows).
  - apply list_elem_of_In, List.in_map_iff. exists r.
    rewrite bool_decide_eq_false_2 by exact Hne.
    split; [reflexivity | apply list_elem_of_In, Hr].
  - apply elem_of_app. left. exact Hr.
Qed.

(** X30: after the profile of a signed-in user is upserted, the address
    kept in it (the real address passed, else the one of the metadata, else
    the address of the account) is a recipient of the alerts exactly when
    it passes for a real address; the role of the user plays no part. The
    rows of the other users and the log stay as they were. *)
Theorem upserted_profile_is_recipient (account : Account)
    (realEmail : string) (db : Db) :
  account_id account <> "" ->
  ((str_or realEmail
      (str_or (account_real_email account) (str_or (account_email account) ""))
    ∈ realEmails
        (profiles_with_real_email
           (upsertCurrentUserProfile (Some account) realEmail db)))
   <-> is_real_email
         (str_or realEmail
            (str_or (account_real_email account)
               (str_or (account_email account) ""))) = true)
  /\ (forall r, r ∈ user_profiles db -> user_id r <> account_id account ->
        r ∈ user_profiles (upsertCurrentUserProfile (Some account) realEmail db))
  /\ notification_logs (upsertCurrentUserProfile (Some account) realEmail db)
     = notification_logs db.
Proof.
  intros Hid. unfold upsertCurrentUserProfile.
  rewrite bool_decide_eq_false_2 by exact Hid.
  set (address := str_or realEmail _).
  set (row := {| user_id := account_id account;
                 profile_email := str_or (account_email account) "";
                 real_email := Some address |}).
  split; [|split; [|reflexivity]].
  - unfold realEmails, profiles_with_real_email. simpl. split.
    + intros Hin. apply list_elem_of_In, List.filter_In in Hin as [_ Hreal].
      exact Hreal.
    + intros Hreal. apply list_elem_of_In, List.filter_In.
      split; [|exact Hreal].
      apply List.in_map_iff. exists row. split; [reflexivity|].
      apply List.filter_In. split.
      * apply list_elem_of_In, upsert_row_elem.
      * apply bool_decide_eq_true. eexists. reflexivity.
  - intros r Hr Hne. simpl. apply upsert_row_others; assumption.
Qed.

Lemma upserted_profile_is_recipient_witness :
  "carol@mail.example"
  ∈ realEmails
      (profiles_with_real_email
         (upsertCurrentUserProfile
            (Some {| account_id := "u-carol";
                     account_email := "carol@vibe-user.example.com";
                     account_real_email := "carol@mail.example" |})
            "" (NotifySample.db []))).
Proof.
  apply (upserted_profile_is_recipient
           {| account_id := "u-carol";
              account_email := "carol@vibe-user.example.com";
              account_real_email := "carol@mail.example" |}
           "" (NotifySample.db [])).
  - discriminate.
  - vm_compute. reflexivity.
Defined.

End AuthFacts.

(** ** Further properties: display names *)

Section DisplayNameFacts.
Import JS Auth Text.

Local Abbreviation squeeze := (replace_runs_from is_space " ").

Lemma squeeze_idem (s : string) (b : bool) : squeeze b (squeeze b s) = squeeze b s.
Proof.
  revert b. induction s as [|c r IH]; intros b; [reflexivity|].
  simpl. destruct (is_space c) eqn:Hc.
  - destruct b; simpl.
    + apply IH.
    + rewrite IH. reflexivity.
  - simpl. rewrite Hc, IH. reflexivity.
Qed.

Lemma trimStart_clean (s : string) : starts_clean s = true -> trimStart s = s.
Proof.
  destruct s as [|c r]; simpl; [reflexivity|].
  intros Hc. apply negb_true_iff in Hc. rewrite Hc. reflexivity.
Qed.

Lemma trimEnd_clean (s : string) : ends_clean s = true -> trimEnd s = s.
Proof.
  induction s as [|c r IH]; [reflexivity|].
  destruct r as [|c' r'].
  - simpl. intros Hc. apply negb_true_iff in Hc. rewrite Hc. reflexivity.
  - intros Hr. change (ends_clean (String c' r') = true) in Hr.
    change (trimEnd (String c (String c' r')))
      with (match trimEnd (String c' r') with
            | EmptyString =>
                if is_space c then EmptyString else String c EmptyString
            | r'' => String c r''
            end).
    rewrite (IH Hr). reflexivity.
Qed.

Lemma starts_clean_trimStart (s : string) : starts_clean (trimStart s) = true.
Proof.
  induction s as [|c r IH]; simpl; [reflexivity|].
  destruct (is_space c) eqn:Hc; [exact IH|]. simpl. rewrite Hc. reflexivity.
Qed.

Lemma starts_clean_trimEnd (s : string) :
  starts_clean s = true -> starts_clean (trimEnd s) = true.
Proof.
  destruct s as [|c r]; simpl; [reflexivity|].
  intros Hc. destruct (trimEnd r); [|exact Hc].
  apply negb_true_iff in Hc. rewrite Hc. simpl. rewrite Hc. reflexivity.
Qed.

Lemma ends_clean_trimEnd (s : string) : ends_clean (trimEnd s) = true.
Proof.
  induction s as [|c r IH]; simpl; [reflexivity|].
  destruct (trimEnd r) as [|c' r'] eqn:Hr.
  - destruct (is_space c) eqn:Hc; simpl; [reflexivity|].
    rewrite Hc. reflexivity.
  - exact IH.
Qed.

Lemma squeeze_nonempty (s : string) (b : bool) :
  ends_clean s = true -> s <> "" -> squeeze b s <> "".
Proof.
  revert b. induction s as [|c r IH]; intros b Hclean Hne; [contradiction|].
  simpl. destruct (is_space c) eqn:Hc; [|discriminate].
  destruct r as [|c' r'].
  - simpl in Hclean. rewrite Hc in Hclean. discriminate.
  - assert (Hr : squeeze true (String c' r') <> "")
      by (apply IH; [exact Hclean | discriminate]).
    destruct b; simpl; [exact Hr | discriminate].
Qed.

Lemma ends_clean_cons (c : ascii) (s : string) :
  s <> "" -> ends_clean (String c s) = ends_clean s.
Proof. destruct s; [contradiction | reflexivity]. Qed.

Lemma ends_clean_squeeze (s : string) (b : bool) :
  ends_clean s = true -> ends_clean (squeeze b s) = true.
Proof.
  revert b. induction s as [|c r IH]; intros b Hclean; [reflexivity|].
  destruct r as [|c' r'].
  - simpl in *. apply negb_true_iff in Hclean. rewrite Hclean. simpl.
    rewrite Hclean. reflexivity.
  - change (ends_clean (String c' r') = true) in Hclean.
    pose proof (squeeze_nonempty (String c' r')) as Hne.
    change (squeeze b (String c (String c' r')))
      with (if is_space c
            then (if b then "" else " ") +:+ squeeze true (String c' r')
            else String c (squeeze false (String c' r'))).
    destruct (is_space c).
    + specialize (Hne true Hclean ltac:(discriminate)).
      specialize (IH true Hclean).
      remember (squeeze true (String c' r')) as t eqn:Ht. clear Ht.
      destruct b.
      * exact IH.
      * change (" " +:+ t) with (String " " t).
        rewrite ends_clean_cons by exact Hne. exact IH.
    + specialize (Hne false Hclean ltac:(discriminate)).
      specialize (IH false Hclean).
      remember (squeeze false (String c' r')) as t eqn:Ht. clear Ht.
      rewrite ends_clean_cons by exact Hne. exact IH.
Qed.

Lemma starts_clean_squeeze (s : string) :
  starts_clean s = true -> starts_clean (squeeze false s) = true.
Proof.
  destruct s as [|c r]; simpl; [reflexivity|].
  intros Hc. apply negb_true_iff in Hc. rewrite Hc. simpl. rewrite Hc.
  reflexivity.
Qed.

(** X6: normalizing a display name twice is normalizing it once: the
    result has no white space at either end and its runs of white space
    are already single spaces. *)
Theorem normalizeDisplayName_idempotent (nameRaw : JsVal) :
  normalizeDisplayName (JStr (normalizeDisplayName nameRaw))
  = normalizeDisplayName nameRaw
  /\ starts_clean (normalizeDisplayName nameRaw) = true
  /\ ends_clean (normalizeDisplayName nameRaw) = true.
Proof.
  unfold normalizeDisplayName, replace_runs.
  set (t := trim (to_String (or_else nameRaw (JStr "")))).
  assert (Hstart : starts_clean t = true)
    by (apply starts_clean_trimEnd, starts_clean_trimStart).
  assert (Hend : ends_clean t = true) by apply ends_clean_trimEnd.
  assert (Hs : starts_clean (squeeze false t) = true)
    by (apply starts_clean_squeeze, Hstart).
  assert (He : ends_clean (squeeze false t) = true)
    by (apply ends_clean_squeeze, Hend).
  split; [|split; assumption].
  rewrite to_String_or_empty. unfold trim.
  rewrite (trimStart_clean _ Hs), (trimEnd_clean _ He).
  apply squeeze_idem.
Qed.

End DisplayNameFacts.
